(** * web-service-render: the MCP tool server for Deno services

    A shallow embedding of the server source (class [DenoServiceServer]):
    the two argument validators, the two tool handlers, the tool dispatcher
    and the configuration read from the environment, followed by the
    properties of the specification that concern them.

    Conventions of the embedding.
    - An untyped JavaScript value that arrives over the transport is a JSON
      value ([Js.value]); [undefined] is [None] of [option Js.value].
    - A JavaScript string is a [string]; a character stands for one code
      unit below 256.  A number is an integer ([Z]), printed in decimal as
      JavaScript prints the integers that a double holds exactly (those
      of magnitude up to 2^53); larger magnitudes, fractions, exponents,
      NaN and the infinities are outside the model, and so is what
      [JSON.stringify] and [JSON.parse] do with them.
    - An object is the list of its own properties in enumeration order.
    - [async] functions run to completion one after the other, so a handler
      is a state-passing function over the state of the file system, and a
      rejected promise is an explicit failure result.
    - Node's [path] and [fs] modules are parameters ([Path], [FileSystem]):
      the properties hold for every implementation of them.

    Part I is the program, with the tool registry and the compiled server
    ([Build]); Part II holds the properties of the specification; Part III
    holds further properties read off the code. *)

From Stdlib Require Import String Ascii List ZArith Lia Bool.
From Stdlib Require Import Decimal DecimalString.
Import ListNotations.
Open Scope string_scope.
Set Warnings "-register-all,-notation-for-abbreviation".

(* ================================================================== *)
(** * Part I: the program                                              *)
(* ================================================================== *)

(** ** JavaScript values *)

Module Js.

Inductive value : Type :=
| JNull
| JBool (b : bool)
| JNum (n : Z)
| JStr (s : string)
| JArr (xs : list value)
| JObj (ps : list (string * value)).

(** [typeof v], with [None] for [undefined]. *)
Definition typeof (v : option value) : string :=
  match v with
  | None => "undefined"
  | Some JNull => "object"
  | Some (JBool _) => "boolean"
  | Some (JNum _) => "number"
  | Some (JStr _) => "string"
  | Some (JArr _) => "object"
  | Some (JObj _) => "object"
  end.

Definition is_null (v : option value) : bool :=
  match v with Some JNull => true | _ => false end.

Definition is_undefined (v : option value) : bool :=
  match v with None => true | _ => false end.

Fixpoint assoc (k : string) (ps : list (string * value)) : option value :=
  match ps with
  | [] => None
  | (k', v) :: ps' => if (k =? k')%string then Some v else assoc k ps'
  end.

(** The property read [o.k] for a name [k] that is neither an array index,
    nor [length], nor a member of a built-in prototype: every name the
    validators destructure is of that kind.  Arrays and primitives have no
    such property. *)
Definition get (o : option value) (k : string) : option value :=
  match o with
  | Some (JObj ps) => assoc k ps
  | _ => None
  end.

(** Truthiness, as used by [||], [?:] and [if]. *)
Definition truthy (v : value) : bool :=
  match v with
  | JNull => false
  | JBool b => b
  | JNum n => negb (n =? 0)%Z
  | JStr s => negb (s =? "")%string
  | JArr _ => true
  | JObj _ => true
  end.

(** Truthiness of an optional string field of a validated record. *)
Definition truthy_str (s : option string) : bool :=
  match s with Some s => negb (s =? "")%string | None => false end.

(** [a || b] on optional strings. *)
Definition or_str (a : option string) (b : option string) : option string :=
  if truthy_str a then a else b.

(** [a || d] where [d] is a literal: the result is never [undefined]. *)
Definition or_str_lit (a : option string) (d : string) : string :=
  match a with
  | Some s => if negb (s =? "")%string then s else d
  | None => d
  end.

Definition or_num_lit (a : option Z) (d : Z) : Z :=
  match a with
  | Some n => if negb (n =? 0)%Z then n else d
  | None => d
  end.

Definition or_value_lit (a : option value) (d : value) : value :=
  match a with
  | Some v => if truthy v then v else d
  | None => d
  end.

(** [Number.prototype.toString] on an integer that a double holds
    exactly: its decimal digits, with a minus sign when negative. *)
Definition Number_toString (n : Z) : string :=
  NilZero.string_of_int (Z.to_int n).

End Js.

Import Js.

(** ** Errors of the protocol *)

Inductive ErrorCode : Type := InvalidParams | MethodNotFound.

(** [new McpError(code, message)] *)
Inductive McpError : Type := mkMcpError (code : ErrorCode) (message : string).

Definition mcp_code (e : McpError) : ErrorCode :=
  match e with mkMcpError c _ => c end.

(** ** The validated argument records *)

Module CreateServiceArgs.
Record t : Type := mk {
  name : string;
  path : string;
  port : option Z;
  description : option string
}.
End CreateServiceArgs.

Module GenerateRenderConfigArgs.
(** [envVars] is declared [Record<string, string>] but checked only to be a
    non-null object, so the field holds whatever object arrived. *)
Record t : Type := mk {
  name : string;
  path : string;
  envVars : option value;
  serviceId : option string;
  region : option string;
  plan : option string
}.
End GenerateRenderConfigArgs.

Module RenderConfig.
Record t : Type := mk {
  apiKey : option string;
  region : option string
}.
End RenderConfig.

(** ** The validators *)

Definition throw {A : Type} (c : ErrorCode) (m : string) : McpError + A :=
  inl (mkMcpError c m).

(** The casts [x as string | undefined] of a value already checked. *)
Definition as_string (v : option value) : option string :=
  match v with Some (JStr s) => Some s | _ => None end.

Definition validateCreateServiceArgs (args : option value)
  : McpError + CreateServiceArgs.t :=
  if negb (typeof args =? "object") || is_null args then
    throw InvalidParams "Arguments must be an object"
  else
    let name := get args "name" in
    let path := get args "path" in
    let port := get args "port" in
    let description := get args "description" in
    match name with
    | Some (JStr name) =>
        match path with
        | Some (JStr path) =>
            inr {| CreateServiceArgs.name := name;
                   CreateServiceArgs.path := path;
                   CreateServiceArgs.port :=
                     match port with Some (JNum p) => Some p | _ => None end;
                   CreateServiceArgs.description :=
                     match description with Some (JStr d) => Some d | _ => None end |}
        | _ => throw InvalidParams "path must be a string"
        end
    | _ => throw InvalidParams "name must be a string"
    end.

Definition validateGenerateRenderConfigArgs (args : option value)
  : McpError + GenerateRenderConfigArgs.t :=
  if negb (typeof args =? "object") || is_null args then
    throw InvalidParams "Arguments must be an object"
  else
    let name := get args "name" in
    let path := get args "path" in
    let envVars := get args "envVars" in
    let serviceId := get args "serviceId" in
    let region := get args "region" in
    let plan := get args "plan" in
    match name with
    | Some (JStr name) =>
        match path with
        | Some (JStr path) =>
            if negb (is_undefined envVars)
               && (negb (typeof envVars =? "object") || is_null envVars) then
              throw InvalidParams "envVars must be an object if provided"
            else if negb (is_undefined serviceId)
                    && negb (typeof serviceId =? "string") then
              throw InvalidParams "serviceId must be a string if provided"
            else if negb (is_undefined region)
                    && negb (typeof region =? "string") then
              throw InvalidParams "region must be a string if provided"
            else if negb (is_undefined plan)
                    && negb (typeof plan =? "string") then
              throw InvalidParams "plan must be a string if provided"
            else
              inr {| GenerateRenderConfigArgs.name := name;
                     GenerateRenderConfigArgs.path := path;
                     GenerateRenderConfigArgs.envVars := envVars;
                     GenerateRenderConfigArgs.serviceId := as_string serviceId;
                     GenerateRenderConfigArgs.region := as_string region;
                     GenerateRenderConfigArgs.plan := as_string plan |}
        | _ => throw InvalidParams "path must be a string"
        end
    | _ => throw InvalidParams "name must be a string"
    end.

(** ** [JSON.stringify(v, null, 2)] *)

Module Json.

Definition nl : string := String (ascii_of_nat 10) "".
Definition dq : string := String (ascii_of_nat 34) "".
Definition gap : string := "  ".

Definition hex_digit (n : N) : ascii :=
  ascii_of_N (if (n <? 10)%N then 48 + n else 87 + n).

(** One code unit inside a quoted string (QuoteJSONString). *)
Definition escape_char (c : ascii) : string :=
  match N_of_ascii c with
  | 8%N => "\b"
  | 9%N => "\t"
  | 10%N => "\n"
  | 12%N => "\f"
  | 13%N => "\r"
  | 34%N => "\" ++ dq
  | 92%N => "\\"
  | n =>
      if (n <? 32)%N then
        "\u00" ++ String (hex_digit (n / 16)) (String (hex_digit (n mod 16)) "")
      else String c ""
  end.

Fixpoint escape (s : string) : string :=
  match s with
  | EmptyString => ""
  | String c r => escape_char c ++ escape r
  end.

Definition quote (s : string) : string := dq ++ escape s ++ dq.

(** SerializeJSONProperty with the gap of two spaces; [indent] is the
    current indentation.  An empty array or object has no line break. *)
Fixpoint stringify_indent (indent : string) (v : value) : string :=
  match v with
  | JNull => "null"
  | JBool true => "true"
  | JBool false => "false"
  | JNum n => Number_toString n
  | JStr s => quote s
  | JArr [] => "[]"
  | JArr xs =>
      let inner := indent ++ gap in
      "[" ++ nl ++ inner
        ++ String.concat ("," ++ nl ++ inner) (map (stringify_indent inner) xs)
        ++ nl ++ indent ++ "]"
  | JObj [] => "{}"
  | JObj ps =>
      let inner := indent ++ gap in
      "{" ++ nl ++ inner
        ++ String.concat ("," ++ nl ++ inner)
             (map (fun p => let '(k, x) := p in
                            quote k ++ ": " ++ stringify_indent inner x) ps)
        ++ nl ++ indent ++ "}"
  end.

Definition JSON_stringify (v : value) : string := stringify_indent "" v.

End Json.

Import Json.

(** ** Property assignment [o.k = v] *)

Fixpoint set_assoc (k : string) (v : value) (ps : list (string * value))
  : list (string * value) :=
  match ps with
  | [] => [(k, v)]
  | (k', v') :: ps' =>
      if (k =? k')%string then (k, v) :: ps' else (k', v') :: set_assoc k v ps'
  end.

(** ** The file system and the handlers' effects *)

Inductive FsOp : Type :=
| Mkdir (dir : string) (recursive : bool)
| WriteFile (file : string) (data : string).

(** What a rejected file-system promise carries: an instance of [Error]
    with its [message], or some other thrown value. *)
Inductive Thrown : Type :=
| ErrorInstance (message : string)
| NotAnError.

(** Node's [path] module, of which the handlers use two functions. *)
Class Path : Type := {
  path_resolve : string -> string -> string;
  path_join : string -> string -> string
}.

(** Node's [fs.promises] over a state [W] of the file system: a call
    either fulfils or rejects, and leaves a new state. *)
Class FileSystem (W : Type) : Type := {
  fs_call : FsOp -> W -> option Thrown * W
}.

Definition IO (W A : Type) : Type := W -> (Thrown + A) * W.

Definition ret {W A : Type} (a : A) : IO W A := fun w => (inr a, w).

Definition bind {W A B : Type} (m : IO W A) (k : A -> IO W B) : IO W B :=
  fun w =>
    match m w with
    | (inl t, w') => (inl t, w')
    | (inr a, w') => k a w'
    end.

Declare Scope io_scope.
Delimit Scope io_scope with io.
Notation "m ;; k" := (bind m (fun _ => k))
  (at level 61, right associativity) : io_scope.

(** [try { body } catch (error) { handler }] *)
Definition try_catch {W A : Type} (body : IO W A) (handler : Thrown -> IO W A)
  : IO W A :=
  fun w =>
    match body w with
    | (inl error, w') => handler error w'
    | (inr a, w') => (inr a, w')
    end.

Definition await_fs {W : Type} `{FileSystem W} (op : FsOp) : IO W unit :=
  fun w =>
    match fs_call op w with
    | (Some t, w') => (inl t, w')
    | (None, w') => (inr tt, w')
    end.

(** ** Tool results *)

Record ContentBlock : Type := mkBlock { type : string; text : string }.

(** [isError] is [None] when the result object has no such key. *)
Record ToolResult : Type := mkResult {
  content : list ContentBlock;
  isError : option bool
}.

Definition text_result (s : string) : ToolResult :=
  {| content := [ {| type := "text"; text := s |} ]; isError := None |}.

Definition error_result (s : string) : ToolResult :=
  {| content := [ {| type := "text"; text := s |} ]; isError := Some true |}.

(** [error instanceof Error ? error.message : 'Unknown error occurred'] *)
Definition errorMessage (error : Thrown) : string :=
  match error with
  | ErrorInstance message => message
  | NotAnError => "Unknown error occurred"
  end.

(** ** The generated files *)

Definition unlines (lines : list string) : string := String.concat nl lines.

(** The template literal of [main.ts]: the text before and the text after
    its one interpolation, [${args.port || 8000}]; the escaped [\`] and
    [\${] are literal text. *)
Definition main_head : string :=
  unlines
    [ "import { Application } from " ++ dq ++ "https://deno.land/x/oak/mod.ts" ++ dq ++ ";";
      "";
      "const app = new Application();";
      "const port = " ].

Definition main_tail : string :=
  unlines
    [ ";";
      "";
      "// Logger middleware";
      "app.use(async (ctx, next) => {";
      "  await next();";
      "  const rt = ctx.response.headers.get(" ++ dq ++ "X-Response-Time" ++ dq ++ ");";
      "  console.log(`${ctx.request.method} ${ctx.request.url} - ${rt}`);";
      "});";
      "";
      "// Response time middleware";
      "app.use(async (ctx, next) => {";
      "  const start = Date.now();";
      "  await next();";
      "  const ms = Date.now() - start;";
      "  ctx.response.headers.set(" ++ dq ++ "X-Response-Time" ++ dq ++ ", `${ms}ms`);";
      "});";
      "";
      "// Routes";
      "app.use((ctx) => {";
      "  ctx.response.body = { message: " ++ dq ++ "Welcome to your Deno service!" ++ dq ++ " };";
      "});";
      "";
      "console.log(`Server running on http://localhost:${port}`);";
      "await app.listen({ port });" ].

Definition mainContent (args : CreateServiceArgs.t) : string :=
  main_head
    ++ Number_toString (or_num_lit (CreateServiceArgs.port args) 8000)
    ++ main_tail.

Definition denoConfig : value :=
  JObj
    [ ("tasks",
       JObj [ ("start", JStr "deno run --allow-net main.ts");
              ("dev", JStr "deno run --allow-net --watch main.ts");
              ("test", JStr "deno test --allow-net") ]);
      ("fmt",
       JObj [ ("files", JObj [ ("include", JArr [ JStr "**/*.ts" ]) ]);
              ("options", JObj [ ("lineWidth", JNum 100);
                                 ("indentWidth", JNum 2) ]) ]);
      ("lint",
       JObj [ ("files", JObj [ ("include", JArr [ JStr "**/*.ts" ]) ]);
              ("rules", JObj [ ("tags", JArr [ JStr "recommended" ]) ]) ]) ].

(** The template literal of [README.md]; the second line is
    [${args.description ? `\n${args.description}\n` : ''}]. *)
Definition readmeContent (args : CreateServiceArgs.t) : string :=
  unlines
    [ "# " ++ CreateServiceArgs.name args;
      match CreateServiceArgs.description args with
      | Some d => if negb (d =? "")%string then nl ++ d ++ nl else ""
      | None => ""
      end;
      "## Development";
      "";
      "Start the development server:";
      "";
      "```bash";
      "deno task dev";
      "```";
      "";
      "Run tests:";
      "";
      "```bash";
      "deno task test";
      "```";
      "";
      "## Production";
      "";
      "Start the production server:";
      "";
      "```bash";
      "deno task start";
      "```";
      "";
      "## API Documentation";
      "";
      "- `GET /` - Welcome message";
      "" ].

(** The object literal [service] of [handleGenerateRenderConfig], before
    the conditional assignment of [id]. *)
Definition service_literal (renderConfig : RenderConfig.t)
    (args : GenerateRenderConfigArgs.t) : list (string * value) :=
  [ ("type", JStr "web");
    ("name", JStr (GenerateRenderConfigArgs.name args));
    ("env", JStr "deno");
    ("region",
     JStr (or_str_lit (or_str (GenerateRenderConfigArgs.region args)
                              (RenderConfig.region renderConfig)) "oregon"));
    ("plan", JStr (or_str_lit (GenerateRenderConfigArgs.plan args) "free"));
    ("buildCommand", JNull);
    ("startCommand", JStr "deno run --allow-net main.ts");
    ("envVars", or_value_lit (GenerateRenderConfigArgs.envVars args) (JObj [])) ].

(** [service] after [if (args.serviceId) { service.id = args.serviceId; }] *)
Definition service (renderConfig : RenderConfig.t)
    (args : GenerateRenderConfigArgs.t) : value :=
  let service := service_literal renderConfig args in
  match GenerateRenderConfigArgs.serviceId args with
  | Some id => if negb (id =? "")%string
               then JObj (set_assoc "id" (JStr id) service)
               else JObj service
  | None => JObj service
  end.

(** The local [renderConfig] of the handler: [{ services: [service] }]. *)
Definition renderYaml (renderConfig : RenderConfig.t)
    (args : GenerateRenderConfigArgs.t) : value :=
  JObj [ ("services", JArr [ service renderConfig args ]) ].

Definition configMessage (renderConfig : RenderConfig.t) : string :=
  if truthy_str (RenderConfig.apiKey renderConfig)
  then "Using global render.com configuration from MCP settings."
  else "Note: No global render.com API key found. You may need to configure this in your MCP settings.".

(** ** The handlers *)

Section Handlers.

Context {W : Type} `{Path} `{FileSystem W}.
Open Scope io_scope.

Definition handleCreateService (args : CreateServiceArgs.t) : IO W ToolResult :=
  try_catch
    (let projectPath :=
       path_resolve (CreateServiceArgs.path args) (CreateServiceArgs.name args) in
     await_fs (Mkdir projectPath true) ;;
     await_fs (WriteFile (path_join projectPath "main.ts") (mainContent args)) ;;
     await_fs (WriteFile (path_join projectPath "deno.json") (JSON_stringify denoConfig)) ;;
     await_fs (WriteFile (path_join projectPath "README.md") (readmeContent args)) ;;
     ret (text_result ("Successfully created Deno service at " ++ projectPath)))
    (fun error =>
       ret (error_result ("Failed to create service: " ++ errorMessage error))).

Definition handleGenerateRenderConfig (renderConfig : RenderConfig.t)
    (args : GenerateRenderConfigArgs.t) : IO W ToolResult :=
  try_catch
    (let configPath := path_join (GenerateRenderConfigArgs.path args) "render.yaml" in
     await_fs (WriteFile configPath (JSON_stringify (renderYaml renderConfig args))) ;;
     ret (text_result ("Generated render.yaml configuration at " ++ configPath
                       ++ nl ++ configMessage renderConfig)))
    (fun error =>
       ret (error_result ("Failed to generate render config: " ++ errorMessage error))).

(** ** The dispatcher ([CallToolRequestSchema] handler) *)

Record CallToolRequest : Type := mkRequest {
  tool : string;                (* request.params.name *)
  arguments : option value      (* request.params.arguments *)
}.

(** How the promise of the request handler settles: fulfilled with a
    result, rejected with an [McpError], or rejected with whatever a
    handler let through. *)
Inductive Outcome : Type :=
| Fulfilled (r : ToolResult)
| RejectedMcp (e : McpError)
| RejectedOther (t : Thrown).

Definition settle (r : (Thrown + ToolResult) * W) : Outcome * W :=
  match r with
  | (inl t, w) => (RejectedOther t, w)
  | (inr a, w) => (Fulfilled a, w)
  end.

Definition callTool (renderConfig : RenderConfig.t) (request : CallToolRequest)
  : W -> Outcome * W :=
  fun w =>
    if (tool request =? "create_deno_service")%string then
      match validateCreateServiceArgs (arguments request) with
      | inl e => (RejectedMcp e, w)
      | inr args => settle (handleCreateService args w)
      end
    else if (tool request =? "generate_render_config")%string then
      match validateGenerateRenderConfigArgs (arguments request) with
      | inl e => (RejectedMcp e, w)
      | inr args => settle (handleGenerateRenderConfig renderConfig args w)
      end
    else
      (RejectedMcp (mkMcpError MethodNotFound ("Unknown tool: " ++ tool request)), w).

End Handlers.

(** ** The constructor: configuration from the environment *)

(** [process.env]: the value of a variable, [None] when it is not set. *)
Definition ProcessEnv : Type := string -> option string.

Definition constructor_renderConfig (env : ProcessEnv) : RenderConfig.t :=
  {| RenderConfig.apiKey := env "RENDER_API_KEY";
     RenderConfig.region := Some (or_str_lit (env "RENDER_REGION") "oregon") |}.

(** The server as a whole: the configuration is read once, then every
    request is dispatched with it. *)
Definition server {W : Type} `{Path} `{FileSystem W} (env : ProcessEnv)
    (request : CallToolRequest) : W -> Outcome * W :=
  callTool (constructor_renderConfig env) request.

(** ** The advertised enumerations ([inputSchema] of [generate_render_config]) *)

Definition region_enum : list string := [ "oregon"; "ohio"; "frankfurt"; "singapore" ].
Definition plan_enum : list string := [ "free"; "individual"; "team"; "business" ].

(** ** Observing the file-system calls of a run

    [logged fs] behaves as [fs] and records every call with the way it
    settled ([None]: fulfilled), in the order of the calls. *)

Notation Log := (list (FsOp * option Thrown)) (only parsing).

Definition logged {W : Type} (fs : FileSystem W) : FileSystem (Log * W) :=
  {| fs_call := fun op (s : Log * W) =>
       let '(r, w') := @fs_call W fs op (snd s) in
       (r, ((fst s ++ [(op, r)])%list, w')) |}.

(** ** Reference environments, for running the handlers on examples *)

(** Joining an absolute, normalised directory and a plain segment: on
    such arguments [path.join] and [path.resolve] both insert a slash. *)
Definition posix : Path :=
  {| path_resolve := fun a b => a ++ "/" ++ b;
     path_join := fun a b => a ++ "/" ++ b |}.

(** A small file system: the directories, the files with their content,
    and whether the volume is read-only.  The root is the empty path. *)
Module SimFs.

Record state : Type := mk {
  dirs : list string;
  files : list (string * string);
  read_only : bool
}.

Fixpoint has_slash (p : string) : bool :=
  match p with
  | EmptyString => false
  | String c r => if (N_of_ascii c =? 47)%N then true else has_slash r
  end.

(** The path up to its last slash. *)
Fixpoint dirname (p : string) : string :=
  match p with
  | EmptyString => ""
  | String c r => if has_slash r then String c (dirname r) else ""
  end.

Fixpoint ancestors (fuel : nat) (p : string) : list string :=
  match fuel with
  | O => []
  | S fuel => if (p =? "")%string then [] else p :: ancestors fuel (dirname p)
  end.

Definition mem (p : string) (l : list string) : bool :=
  existsb (String.eqb p) l.

Fixpoint add_all (ps : list string) (l : list string) : list string :=
  match ps with
  | [] => l
  | p :: ps' => if mem p l then add_all ps' l else add_all ps' (l ++ [p])%list
  end.

Fixpoint put (f data : string) (fs : list (string * string)) : list (string * string) :=
  match fs with
  | [] => [(f, data)]
  | (f', d') :: fs' =>
      if (f =? f')%string then (f, data) :: fs' else (f', d') :: put f data fs'
  end.

Fixpoint read (f : string) (fs : list (string * string)) : option string :=
  match fs with
  | [] => None
  | (f', d') :: fs' => if (f =? f')%string then Some d' else read f fs'
  end.

Definition fail (code syscall p : string) (s : state) : option Thrown * state :=
  (Some (ErrorInstance (code ++ ", " ++ syscall ++ " '" ++ p ++ "'")), s).

Definition call (op : FsOp) (s : state) : option Thrown * state :=
  match op with
  | Mkdir d recursive =>
      if read_only s then fail "EROFS: read-only file system" "mkdir" d s
      else if mem d (map fst (files s)) then fail "EEXIST: file already exists" "mkdir" d s
      else if mem d (dirs s) then
        if recursive then (None, s) else fail "EEXIST: file already exists" "mkdir" d s
      else if recursive then
        (None, mk (add_all (ancestors (String.length d) d) (dirs s)) (files s) false)
      else if mem (dirname d) (dirs s) then
        (None, mk (dirs s ++ [d])%list (files s) false)
      else fail "ENOENT: no such file or directory" "mkdir" d s
  | WriteFile f data =>
      if read_only s then fail "EROFS: read-only file system" "open" f s
      else if mem f (dirs s) then fail "EISDIR: illegal operation on a directory" "open" f s
      else if mem (dirname f) (dirs s) then
        (None, mk (dirs s) (put f data (files s)) false)
      else fail "ENOENT: no such file or directory" "open" f s
  end.

Definition fs : FileSystem state := {| fs_call := call |}.

(** A writable volume holding the directory [/tmp] alone. *)
Definition tmp_only : state := mk [ "/tmp" ] [] false.

End SimFs.

(** ** The handlers, call by call *)

Section Calls.

Context {W : Type} {P : Path} (FS : FileSystem W).

Definition created_text (a : CreateServiceArgs.t) : ToolResult :=
  text_result ("Successfully created Deno service at "
               ++ path_resolve (CreateServiceArgs.path a) (CreateServiceArgs.name a)).

Definition create_failed (t : Thrown) : ToolResult :=
  error_result ("Failed to create service: " ++ errorMessage t).

Definition generated_text (cfg : RenderConfig.t) (a : GenerateRenderConfigArgs.t)
  : ToolResult :=
  text_result ("Generated render.yaml configuration at "
               ++ path_join (GenerateRenderConfigArgs.path a) "render.yaml"
               ++ nl ++ configMessage cfg).

Definition generate_failed (t : Thrown) : ToolResult :=
  error_result ("Failed to generate render config: " ++ errorMessage t).

(** The four calls of [handleCreateService], in program order. *)
Definition create_calls (a : CreateServiceArgs.t) : list FsOp :=
  let projectPath :=
    path_resolve (CreateServiceArgs.path a) (CreateServiceArgs.name a) in
  [ Mkdir projectPath true;
    WriteFile (path_join projectPath "main.ts") (mainContent a);
    WriteFile (path_join projectPath "deno.json") (JSON_stringify denoConfig);
    WriteFile (path_join projectPath "README.md") (readmeContent a) ].

(** The one call of [handleGenerateRenderConfig]. *)
Definition generate_call (cfg : RenderConfig.t) (a : GenerateRenderConfigArgs.t)
  : FsOp :=
  WriteFile (path_join (GenerateRenderConfigArgs.path a) "render.yaml")
            (JSON_stringify (renderYaml cfg a)).

(** Making the calls of a list in order, up to the first rejection, and
    logging them. *)
Fixpoint run_calls (ops : list FsOp) (log : Log) (w : W) : option Thrown * (Log * W) :=
  match ops with
  | [] => (None, (log, w))
  | op :: ops' =>
      match fs_call op w with
      | (Some t, w') => (Some t, ((log ++ [(op, Some t)])%list, w'))
      | (None, w') => run_calls ops' (log ++ [(op, None)])%list w'
      end
  end.

End Calls.

(** ** Vocabulary of the properties *)

(** A field that is present but not of primitive type [ty]. *)
Definition wrong_type (v : option value) (ty : string) : Prop :=
  v <> None /\ typeof v <> ty.

(** A field that is present but is not an object ([null] is not one). *)
Definition not_an_object (v : option value) : Prop :=
  v <> None /\ (typeof v <> "object" \/ v = Some JNull).

Definition rejected_as_invalid {A : Type} (r : McpError + A) : Prop :=
  exists m, r = inl (mkMcpError InvalidParams m).

(** The raw arguments are not an object, or [name] or [path] is missing or
    is not a string. *)
Definition lacks_required (raw : option value) : Prop :=
  typeof raw <> "object" \/ raw = Some JNull
  \/ typeof (get raw "name") <> "string" \/ typeof (get raw "path") <> "string".

Definition known_tool (t : string) : Prop :=
  t = "create_deno_service" \/ t = "generate_render_config".

(** An optional string that is absent or empty: what [||] and [if] take
    for false. *)
Definition unset (o : option string) : Prop := o = None \/ o = Some "".

(** A property of the one service of the descriptor. *)
Definition descriptor_field (renderConfig : RenderConfig.t)
    (args : GenerateRenderConfigArgs.t) (k : string) : option value :=
  get (Some (service renderConfig args)) k.

(** ** The tool registry ([ListToolsRequestSchema] handler) *)

Definition create_deno_service_tool : value :=
  JObj
    [ ("name", JStr "create_deno_service");
      ("description", JStr "Create a new Deno web service project with best practices");
      ("inputSchema",
       JObj
         [ ("type", JStr "object");
           ("properties",
            JObj
              [ ("name", JObj [ ("type", JStr "string");
                                ("description", JStr "Service name") ]);
                ("path", JObj [ ("type", JStr "string");
                                ("description", JStr "Directory to create the service in") ]);
                ("port", JObj [ ("type", JStr "number");
                                ("description", JStr "Port number for the service");
                                ("default", JNum 8000) ]);
                ("description", JObj [ ("type", JStr "string");
                                       ("description", JStr "Service description") ]) ]);
           ("required", JArr [ JStr "name"; JStr "path" ]) ]) ].

Definition generate_render_config_tool : value :=
  JObj
    [ ("name", JStr "generate_render_config");
      ("description",
       JStr "Generate render.yaml configuration for deployment. Optionally link to existing render.com services using serviceId.");
      ("inputSchema",
       JObj
         [ ("type", JStr "object");
           ("properties",
            JObj
              [ ("name", JObj [ ("type", JStr "string");
                                ("description", JStr "Service name") ]);
                ("path", JObj [ ("type", JStr "string");
                                ("description", JStr "Path to service directory") ]);
                ("envVars", JObj [ ("type", JStr "object");
                                   ("description", JStr "Environment variables for deployment");
                                   ("additionalProperties",
                                    JObj [ ("type", JStr "string") ]) ]);
                ("serviceId",
                 JObj [ ("type", JStr "string");
                        ("description",
                         JStr "Existing render.com service ID (e.g., srv-xxxxx) for updates") ]);
                ("region",
                 JObj [ ("type", JStr "string");
                        ("description", JStr "Deployment region (overrides global setting)");
                        ("enum", JArr (map JStr region_enum));
                        ("default", JStr "oregon") ]);
                ("plan",
                 JObj [ ("type", JStr "string");
                        ("description", JStr "Service plan type");
                        ("enum", JArr (map JStr plan_enum));
                        ("default", JStr "free") ]) ]);
           ("required", JArr [ JStr "name"; JStr "path" ]) ]) ].

(** The response of the listing handler. *)
Definition listTools : value :=
  JObj [ ("tools", JArr [ create_deno_service_tool; generate_render_config_tool ]) ].

(** Reading the registry as a client does. *)
Definition elements (v : option value) : list value :=
  match v with Some (JArr xs) => xs | _ => [] end.

Definition strings (vs : list value) : list string :=
  flat_map (fun v => match v with JStr s => [s] | _ => [] end) vs.

Definition tool_names (listing : value) : list string :=
  flat_map (fun t => match get (Some t) "name" with
                     | Some (JStr n) => [n]
                     | _ => []
                     end)
           (elements (get (Some listing) "tools")).

Definition find_tool (listing : value) (n : string) : option value :=
  find (fun t => match get (Some t) "name" with
                 | Some (JStr m) => (m =? n)%string
                 | _ => false
                 end)
       (elements (get (Some listing) "tools")).

Definition schema_required (t : value) : list string :=
  strings (elements (get (get (Some t) "inputSchema") "required")).

Definition schema_properties (t : value) : list string :=
  match get (get (Some t) "inputSchema") "properties" with
  | Some (JObj ps) => map fst ps
  | _ => []
  end.

(** The default that the schema advertises for a property. *)
Definition schema_default (t : value) (f : string) : option value :=
  get (get (get (get (Some t) "inputSchema") "properties") f) "default".

(** Whether the validator of the tool named [t] accepts the raw arguments;
    no validator runs for any other name. *)
Definition accepts (t : string) (raw : option value) : bool :=
  if (t =? "create_deno_service")%string then
    match validateCreateServiceArgs raw with inr _ => true | inl _ => false end
  else if (t =? "generate_render_config")%string then
    match validateGenerateRenderConfigArgs raw with inr _ => true | inl _ => false end
  else false.

(** ** The compiled server ([build/index.js])

    The compiled file is an earlier state of the server: its
    [generate_render_config] knows a [teamId], from the arguments or from
    [RENDER_TEAM_ID], and no [serviceId].  Its [validateCreateServiceArgs]
    and [handleCreateService] are the functions above, word for word. *)

Module Build.

Module GenerateRenderConfigArgs.
Record t : Type := mk {
  name : string;
  path : string;
  envVars : option value;
  teamId : option string;
  region : option string;
  plan : option string
}.
End GenerateRenderConfigArgs.

Module RenderConfig.
Record t : Type := mk {
  apiKey : option string;
  teamId : option string;
  region : option string
}.
End RenderConfig.

Definition validateGenerateRenderConfigArgs (args : option value)
  : McpError + GenerateRenderConfigArgs.t :=
  if negb (typeof args =? "object") || is_null args then
    throw InvalidParams "Arguments must be an object"
  else
    let name := get args "name" in
    let path := get args "path" in
    let envVars := get args "envVars" in
    let teamId := get args "teamId" in
    let region := get args "region" in
    let plan := get args "plan" in
    match name with
    | Some (JStr name) =>
        match path with
        | Some (JStr path) =>
            if negb (is_undefined envVars)
               && (negb (typeof envVars =? "object") || is_null envVars) then
              throw InvalidParams "envVars must be an object if provided"
            else if negb (is_undefined teamId)
                    && negb (typeof teamId =? "string") then
              throw InvalidParams "teamId must be a string if provided"
            else if negb (is_undefined region)
                    && negb (typeof region =? "string") then
              throw InvalidParams "region must be a string if provided"
            else if negb (is_undefined plan)
                    && negb (typeof plan =? "string") then
              throw InvalidParams "plan must be a string if provided"
            else
              inr {| GenerateRenderConfigArgs.name := name;
                     GenerateRenderConfigArgs.path := path;
                     GenerateRenderConfigArgs.envVars := envVars;
                     GenerateRenderConfigArgs.teamId := as_string teamId;
                     GenerateRenderConfigArgs.region := as_string region;
                     GenerateRenderConfigArgs.plan := as_string plan |}
        | _ => throw InvalidParams "path must be a string"
        end
    | _ => throw InvalidParams "name must be a string"
    end.

Definition service_literal (renderConfig : RenderConfig.t)
    (args : GenerateRenderConfigArgs.t) : list (string * value) :=
  [ ("type", JStr "web");
    ("name", JStr (GenerateRenderConfigArgs.name args));
    ("env", JStr "deno");
    ("region",
     JStr (or_str_lit (or_str (GenerateRenderConfigArgs.region args)
                              (RenderConfig.region renderConfig)) "oregon"));
    ("plan", JStr (or_str_lit (GenerateRenderConfigArgs.plan args) "free"));
    ("buildCommand", JNull);
    ("startCommand", JStr "deno run --allow-net main.ts");
    ("envVars", or_value_lit (GenerateRenderConfigArgs.envVars args) (JObj [])) ].

(** [service] after
    [const teamId = args.teamId || this.renderConfig.teamId;
     if (teamId) { service.teamId = teamId; }] *)
Definition service (renderConfig : RenderConfig.t)
    (args : GenerateRenderConfigArgs.t) : value :=
  let service := service_literal renderConfig args in
  let teamId := or_str (GenerateRenderConfigArgs.teamId args)
                       (RenderConfig.teamId renderConfig) in
  match teamId with
  | Some id => if negb (id =? "")%string
               then JObj (set_assoc "teamId" (JStr id) service)
               else JObj service
  | None => JObj service
  end.

Definition renderYaml (renderConfig : RenderConfig.t)
    (args : GenerateRenderConfigArgs.t) : value :=
  JObj [ ("services", JArr [ service renderConfig args ]) ].

Definition configMessage (renderConfig : RenderConfig.t) : string :=
  if truthy_str (RenderConfig.apiKey renderConfig)
  then "Using global render.com configuration from MCP settings."
  else "Note: No global render.com API key found. You may need to configure this in your MCP settings.".

Definition descriptor_field (renderConfig : RenderConfig.t)
    (args : GenerateRenderConfigArgs.t) (k : string) : option value :=
  get (Some (service renderConfig args)) k.

Section Handlers.

Context {W : Type} `{Path} `{FileSystem W}.
Open Scope io_scope.

Definition handleGenerateRenderConfig (renderConfig : RenderConfig.t)
    (args : GenerateRenderConfigArgs.t) : IO W ToolResult :=
  try_catch
    (let configPath := path_join (GenerateRenderConfigArgs.path args) "render.yaml" in
     await_fs (WriteFile configPath (JSON_stringify (renderYaml renderConfig args))) ;;
     ret (text_result ("Generated render.yaml configuration at " ++ configPath
                       ++ nl ++ configMessage renderConfig)))
    (fun error =>
       ret (error_result ("Failed to generate render config: " ++ errorMessage error))).

Definition callTool (renderConfig : RenderConfig.t) (request : CallToolRequest)
  : W -> Outcome * W :=
  fun w =>
    if (tool request =? "create_deno_service")%string then
      match validateCreateServiceArgs (arguments request) with
      | inl e => (RejectedMcp e, w)
      | inr args => settle (handleCreateService args w)
      end
    else if (tool request =? "generate_render_config")%string then
      match validateGenerateRenderConfigArgs (arguments request) with
      | inl e => (RejectedMcp e, w)
      | inr args => settle (handleGenerateRenderConfig renderConfig args w)
      end
    else
      (RejectedMcp (mkMcpError MethodNotFound ("Unknown tool: " ++ tool request)), w).

End Handlers.

Definition constructor_renderConfig (env : ProcessEnv) : RenderConfig.t :=
  {| RenderConfig.apiKey := env "RENDER_API_KEY";
     RenderConfig.teamId := env "RENDER_TEAM_ID";
     RenderConfig.region := Some (or_str_lit (env "RENDER_REGION") "oregon") |}.

Definition server {W : Type} `{Path} `{FileSystem W} (env : ProcessEnv)
    (request : CallToolRequest) : W -> Outcome * W :=
  callTool (constructor_renderConfig env) request.

End Build.

(** ** Vocabulary of the further properties *)

(** Two property lists that agree on the names of [ks]. *)
Definition agree_on (ks : list string) (ps qs : list (string * value)) : Prop :=
  forall k, In k ks -> assoc k ps = assoc k qs.

(** Two environments that agree on the variables of [ks]. *)
Definition env_agree_on (ks : list string) (e1 e2 : ProcessEnv) : Prop :=
  forall k, In k ks -> e1 k = e2 k.

(** An optional field that is absent or a string. *)
Definition absent_or_string (v : option value) : Prop :=
  v = None \/ typeof v = "string".

(** An optional field that is absent or a non-null object (an array is
    one). *)
Definition absent_or_object (v : option value) : Prop :=
  v = None \/ (typeof v = "object" /\ v <> Some JNull).


(** The paragraph of the description in [README.md]. *)
Definition description_block (d : option string) : string :=
  match d with
  | Some d => if (d =? "")%string then "" else nl ++ d ++ nl
  | None => ""
  end.

(* ================================================================== *)
(** * Part II: properties                                              *)
(* ================================================================== *)

(** ** Strings *)

Lemma string_app_assoc (a b c : string) : (a ++ b) ++ c = a ++ (b ++ c).
Proof. induction a as [|x a IH]; simpl; [reflexivity | rewrite IH; reflexivity]. Qed.

Lemma string_app_nil_r (a : string) : a ++ "" = a.
Proof. induction a as [|x a IH]; simpl; [reflexivity | rewrite IH; reflexivity]. Qed.

Lemma concat_one (sep a : string) : String.concat sep [a] = a.
Proof. reflexivity. Qed.

Lemma concat_more (sep a b : string) (l : list string) :
  String.concat sep (a :: b :: l) = a ++ sep ++ String.concat sep (b :: l).
Proof. reflexivity. Qed.

(** ** The validators *)

Lemma get_some_inv (raw : option value) (k : string) (v : value) :
  get raw k = Some v -> exists ps, raw = Some (JObj ps) /\ assoc k ps = Some v.
Proof.
  destruct raw as [[ | | | | | ps]|]; simpl; try discriminate.
  intros E; exists ps; split; [reflexivity | exact E].
Qed.

Lemma validateCreateServiceArgs_ok (ps : list (string * value)) (name path : string) :
  assoc "name" ps = Some (JStr name) ->
  assoc "path" ps = Some (JStr path) ->
  validateCreateServiceArgs (Some (JObj ps))
  = inr {| CreateServiceArgs.name := name;
           CreateServiceArgs.path := path;
           CreateServiceArgs.port :=
             match assoc "port" ps with Some (JNum p) => Some p | _ => None end;
           CreateServiceArgs.description :=
             match assoc "description" ps with Some (JStr d) => Some d | _ => None end |}.
Proof.
  intros Hn Hp. unfold validateCreateServiceArgs. simpl. rewrite Hn, Hp. reflexivity.
Qed.

Lemma validateCreateServiceArgs_inv (raw : option value) (a : CreateServiceArgs.t) :
  validateCreateServiceArgs raw = inr a ->
  exists ps,
    raw = Some (JObj ps)
    /\ assoc "name" ps = Some (JStr (CreateServiceArgs.name a))
    /\ assoc "path" ps = Some (JStr (CreateServiceArgs.path a))
    /\ CreateServiceArgs.port a
       = match assoc "port" ps with Some (JNum p) => Some p | _ => None end
    /\ CreateServiceArgs.description a
       = match assoc "description" ps with Some (JStr d) => Some d | _ => None end.
Proof.
  unfold validateCreateServiceArgs, throw.
  destruct raw as [[ | | | | | ps]|]; simpl; try discriminate.
  destruct (assoc "name" ps) as [[ | | | n | | ]|] eqn:En; try discriminate.
  destruct (assoc "path" ps) as [[ | | | p | | ]|] eqn:Ep; try discriminate.
  intros E. injection E as <-. exists ps. simpl. repeat split; assumption.
Qed.

Lemma validateGenerateRenderConfigArgs_inv (raw : option value)
    (a : GenerateRenderConfigArgs.t) :
  validateGenerateRenderConfigArgs raw = inr a ->
  exists ps,
    raw = Some (JObj ps)
    /\ assoc "name" ps = Some (JStr (GenerateRenderConfigArgs.name a))
    /\ assoc "path" ps = Some (JStr (GenerateRenderConfigArgs.path a))
    /\ GenerateRenderConfigArgs.envVars a = assoc "envVars" ps
    /\ (assoc "envVars" ps = None
        \/ (exists xs, assoc "envVars" ps = Some (JArr xs))
        \/ (exists qs, assoc "envVars" ps = Some (JObj qs)))
    /\ (assoc "serviceId" ps = None /\ GenerateRenderConfigArgs.serviceId a = None
        \/ exists s, assoc "serviceId" ps = Some (JStr s)
                     /\ GenerateRenderConfigArgs.serviceId a = Some s)
    /\ (assoc "region" ps = None /\ GenerateRenderConfigArgs.region a = None
        \/ exists s, assoc "region" ps = Some (JStr s)
                     /\ GenerateRenderConfigArgs.region a = Some s)
    /\ (assoc "plan" ps = None /\ GenerateRenderConfigArgs.plan a = None
        \/ exists s, assoc "plan" ps = Some (JStr s)
                     /\ GenerateRenderConfigArgs.plan a = Some s).
Proof.
  unfold validateGenerateRenderConfigArgs, throw.
  destruct raw as [[ | | | | | ps]|]; simpl; try discriminate.
  destruct (assoc "name" ps) as [[ | | | n | | ]|] eqn:En; try discriminate.
  destruct (assoc "path" ps) as [[ | | | p | | ]|] eqn:Ep; try discriminate.
  destruct (assoc "envVars" ps) as [[ | | | | xs | qs ]|] eqn:Ee; simpl; try discriminate;
  destruct (assoc "serviceId" ps) as [[ | | | s | | ]|] eqn:Es; simpl; try discriminate;
  destruct (assoc "region" ps) as [[ | | | r | | ]|] eqn:Er; simpl; try discriminate;
  destruct (assoc "plan" ps) as [[ | | | q | | ]|] eqn:Eq; simpl; try discriminate;
  intros E; injection E as <-; exists ps; simpl;
  rewrite ?En, ?Ep, ?Ee, ?Es, ?Er, ?Eq;
  repeat match goal with
         | |- _ /\ _ => split
         | |- ?x = ?x => reflexivity
         | |- None = None /\ _ \/ _ => left; split; reflexivity
         | |- Some (JStr ?s) = None /\ _ \/ _ => right; exists s; split; reflexivity
         | |- None = None \/ _ => left; reflexivity
         | |- Some (JArr ?xs) = None \/ _ => right; left; exists xs; reflexivity
         | |- Some (JObj ?qs) = None \/ _ => right; right; exists qs; reflexivity
         end.
Qed.

(** Every rejection by a validator carries the code [InvalidParams]. *)
Lemma validateCreateServiceArgs_code (raw : option value) (e : McpError) :
  validateCreateServiceArgs raw = inl e -> mcp_code e = InvalidParams.
Proof.
  unfold validateCreateServiceArgs, throw.
  destruct (negb (typeof raw =? "object") || is_null raw).
  - intros E; injection E as <-; reflexivity.
  - destruct (get raw "name") as [[ | | | n | | ]|];
      try (intros E; injection E as <-; reflexivity).
    destruct (get raw "path") as [[ | | | p | | ]|];
      try (intros E; injection E as <-; reflexivity).
    discriminate.
Qed.

Lemma validateGenerateRenderConfigArgs_code (raw : option value) (e : McpError) :
  validateGenerateRenderConfigArgs raw = inl e -> mcp_code e = InvalidParams.
Proof.
  unfold validateGenerateRenderConfigArgs, throw.
  destruct (negb (typeof raw =? "object") || is_null raw).
  - intros E; injection E as <-; reflexivity.
  - destruct (get raw "name") as [[ | | | n | | ]|];
      try (intros E; injection E as <-; reflexivity).
    destruct (get raw "path") as [[ | | | p | | ]|];
      try (intros E; injection E as <-; reflexivity).
    repeat match goal with
           | |- (if ?c then _ else _) = _ -> _ =>
               destruct c; [intros E; injection E as <-; reflexivity | ]
           end.
    discriminate.
Qed.

Lemma rejected_by_code {A : Type} (r : McpError + A) (e : McpError) :
  r = inl e -> mcp_code e = InvalidParams -> rejected_as_invalid r.
Proof.
  intros -> Hc. destruct e as [c m]. simpl in Hc. subst c. exists m. reflexivity.
Qed.


(** ** The handlers, call by call *)

Section HandlerFacts.

Context {W : Type} {P : Path} (FS : FileSystem W).

Lemma handleGenerateRenderConfig_logged cfg a (log : Log) (w : W) :
  @handleGenerateRenderConfig _ P (logged FS) cfg a (log, w)
  = match fs_call (generate_call cfg a) w with
    | (Some t, w') =>
        (inr (generate_failed t), ((log ++ [(generate_call cfg a, Some t)])%list, w'))
    | (None, w') =>
        (inr (generated_text cfg a), ((log ++ [(generate_call cfg a, None)])%list, w'))
    end.
Proof.
  unfold handleGenerateRenderConfig, try_catch, bind, await_fs, ret, generate_call.
  simpl. destruct (fs_call _ w) as [[t|] w']; reflexivity.
Qed.

Lemma handleCreateService_logged a (log : Log) (w : W) :
  @handleCreateService _ P (logged FS) a (log, w)
  = match run_calls FS (create_calls a) log w with
    | (Some t, s) => (inr (create_failed t), s)
    | (None, s) => (inr (created_text a), s)
    end.
Proof.
  unfold handleCreateService, try_catch, bind, await_fs, ret, create_calls.
  simpl.
  repeat match goal with
         | |- context [fs_call ?op ?w] =>
             destruct (fs_call op w) as [[?t|] ?w']; simpl; try reflexivity
         end.
Qed.

(** The log of [run_calls]: the calls made are an initial segment of the
    calls to make, all fulfilled but possibly the last; the run fails
    exactly when its last call was rejected. *)
Lemma run_calls_log ops log w r log' w' :
  run_calls FS ops log w = (r, (log', w')) ->
  exists done : Log,
    log' = (log ++ done)%list
    /\ (exists k, map fst done = firstn k ops)
    /\ match r with
       | Some t =>
           exists pre op, done = (pre ++ [(op, Some t)])%list
                          /\ Forall (fun c => snd c = None) pre
       | None => map fst done = ops /\ Forall (fun c => snd c = None) done
       end.
Proof.
  revert log w. induction ops as [|op ops IH]; intros log w; simpl.
  - intros E. injection E as <- <- <-. exists []. rewrite app_nil_r.
    split; [reflexivity|]. split; [exists 0; reflexivity|]. split; [reflexivity|constructor].
  - destruct (fs_call op w) as [[t|] w1] eqn:E1.
    + intros E. injection E as <- <- <-. exists [(op, Some t)].
      split; [reflexivity|]. split; [exists 1; reflexivity|].
      exists [], op. split; [reflexivity|constructor].
    + intros E. apply IH in E. destruct E as (done & -> & [k Hk] & Hr).
      exists ((op, None) :: done). split; [rewrite <- app_assoc; reflexivity|].
      split; [exists (S k); simpl; rewrite Hk; reflexivity|].
      destruct r as [t|].
      * destruct Hr as (pre & op' & -> & Hpre).
        exists ((op, None) :: pre), op'. split; [reflexivity|].
        constructor; [reflexivity|assumption].
      * destruct Hr as [Hm Hall]. split; [simpl; rewrite Hm; reflexivity|].
        constructor; [reflexivity|assumption].
Qed.

End HandlerFacts.

(** ** Required fields *)

Lemma lacks_required_create (raw : option value) :
  lacks_required raw -> rejected_as_invalid (validateCreateServiceArgs raw).
Proof.
  intros H.
  destruct (validateCreateServiceArgs raw) as [e|a] eqn:E.
  - eapply rejected_by_code; [reflexivity|]. eapply validateCreateServiceArgs_code; eassumption.
  - exfalso. apply validateCreateServiceArgs_inv in E.
    destruct E as (ps & -> & Hn & Hp & _).
    destruct H as [H|[H|[H|H]]]; simpl in H;
      try rewrite Hn in H; try rewrite Hp in H; simpl in H;
      solve [apply H; reflexivity | discriminate].
Qed.

Lemma lacks_required_generate (raw : option value) :
  lacks_required raw -> rejected_as_invalid (validateGenerateRenderConfigArgs raw).
Proof.
  intros H.
  destruct (validateGenerateRenderConfigArgs raw) as [e|a] eqn:E.
  - eapply rejected_by_code; [reflexivity|].
    eapply validateGenerateRenderConfigArgs_code; eassumption.
  - exfalso. apply validateGenerateRenderConfigArgs_inv in E.
    destruct E as (ps & -> & Hn & Hp & _).
    destruct H as [H|[H|[H|H]]]; simpl in H;
      try rewrite Hn in H; try rewrite Hp in H; simpl in H;
      solve [apply H; reflexivity | discriminate].
Qed.

(** C4. For either tool, raw arguments that are not an object, or whose
    [name] or [path] is missing or is not a string, make the request fail
    with an [McpError] of code [InvalidParams]; the handler is not entered:
    the log of file-system calls and the file system are as before. *)
Theorem C4_missing_required_field_rejected_without_write
    {W : Type} {P : Path} (FS : FileSystem W)
    (cfg : RenderConfig.t) (req : CallToolRequest) (log : Log) (w : W) :
  known_tool (tool req) ->
  lacks_required (arguments req) ->
  exists m,
    @callTool _ P (logged FS) cfg req (log, w)
    = (RejectedMcp (mkMcpError InvalidParams m), (log, w)).
Proof.
  intros Hk Hl. unfold callTool.
  destruct Hk as [-> | ->]; simpl.
  - destruct (lacks_required_create _ Hl) as [m ->]. exists m. reflexivity.
  - destruct (lacks_required_generate _ Hl) as [m ->]. exists m. reflexivity.
Qed.

Lemma C4_witness :
  exists m,
    @callTool _ posix (logged SimFs.fs)
      (constructor_renderConfig (fun _ => None))
      {| tool := "create_deno_service";
         arguments := Some (JObj [ ("name", JStr "svc"); ("path", JNum 7) ]) |}
      ([], SimFs.tmp_only)
    = (RejectedMcp (mkMcpError InvalidParams m), ([], SimFs.tmp_only)).
Proof.
  apply (C4_missing_required_field_rejected_without_write SimFs.fs).
  - left; reflexivity.
  - right; right; right. simpl. discriminate.
Defined.

(** ** Optional fields *)

(** C1, counterexample. A [region] that is present as a number makes the
    validation of [generate_render_config] fail: the field is not dropped. *)
Lemma C1_counterexample :
  wrong_type
    (get (Some (JObj [ ("name", JStr "svc"); ("path", JStr "/tmp/svc");
                       ("region", JNum 5) ])) "region") "string"
  /\ validateGenerateRenderConfigArgs
       (Some (JObj [ ("name", JStr "svc"); ("path", JStr "/tmp/svc");
                     ("region", JNum 5) ]))
     = inl (mkMcpError InvalidParams "region must be a string if provided").
Proof.
  split; [split; simpl; discriminate | reflexivity].
Qed.

(** C1, amended. With [name] and [path] in order: [create_deno_service]
    accepts a [port] or [description] of the wrong primitive type and
    treats it as absent (the port then defaults to 8000); it keeps one of
    the right type.  [generate_render_config] rejects with [InvalidParams]
    an [envVars] that is present and not an object, and a [serviceId],
    [region] or [plan] that is present and not a string. *)
Theorem C1_optional_fields_lenient_for_create_strict_for_generate
    (raw : option value) (name path : string) :
  get raw "name" = Some (JStr name) ->
  get raw "path" = Some (JStr path) ->
  (exists a,
      validateCreateServiceArgs raw = inr a
      /\ (typeof (get raw "port") <> "number" ->
          CreateServiceArgs.port a = None
          /\ or_num_lit (CreateServiceArgs.port a) 8000 = 8000%Z)
      /\ (forall p, get raw "port" = Some (JNum p) -> CreateServiceArgs.port a = Some p)
      /\ (typeof (get raw "description") <> "string" ->
          CreateServiceArgs.description a = None)
      /\ (forall d, get raw "description" = Some (JStr d) ->
          CreateServiceArgs.description a = Some d))
  /\ (not_an_object (get raw "envVars") ->
      validateGenerateRenderConfigArgs raw
      = inl (mkMcpError InvalidParams "envVars must be an object if provided"))
  /\ (forall k, In k [ "serviceId"; "region"; "plan" ] ->
      wrong_type (get raw k) "string" ->
      rejected_as_invalid (validateGenerateRenderConfigArgs raw)).
Proof.
  intros Hn Hp.
  destruct (get_some_inv _ _ _ Hn) as (ps & -> & Hn').
  simpl in Hp. simpl.
  split; [|split].
  - eexists. split; [apply validateCreateServiceArgs_ok; eassumption|]. simpl.
    repeat split.
    + destruct (assoc "port" ps) as [[ | | | | | ]|]; simpl in *; try reflexivity.
      exfalso; apply H; reflexivity.
    + destruct (assoc "port" ps) as [[ | | | | | ]|]; simpl in *; try reflexivity.
      exfalso; apply H; reflexivity.
    + intros p ->. reflexivity.
    + intros H. destruct (assoc "description" ps) as [[ | | | | | ]|];
        simpl in *; try reflexivity. exfalso; apply H; reflexivity.
    + intros d ->. reflexivity.
  - intros [Hpres Hty]. unfold validateGenerateRenderConfigArgs. simpl.
    rewrite Hn', Hp.
    destruct (assoc "envVars" ps) as [[ | | | | | ]|]; simpl in *; try reflexivity;
      try (exfalso; apply Hpres; reflexivity);
      destruct Hty as [Hty|Hty]; solve [exfalso; apply Hty; reflexivity | discriminate].
  - intros k Hk [Hpres Hty].
    destruct (validateGenerateRenderConfigArgs (Some (JObj ps))) as [e|a] eqn:E.
    + eapply rejected_by_code; [reflexivity|].
      eapply validateGenerateRenderConfigArgs_code; eassumption.
    + exfalso. apply validateGenerateRenderConfigArgs_inv in E.
      destruct E as (ps' & Eps & _ & _ & _ & _ & Hs & Hr & Hq).
      injection Eps as <-.
      simpl in Hk. destruct Hk as [<-|[<-|[<-|[]]]].
      * destruct Hs as [[H _]|(s & H & _)]; rewrite H in *;
          [apply Hpres | apply Hty]; reflexivity.
      * destruct Hr as [[H _]|(s & H & _)]; rewrite H in *;
          [apply Hpres | apply Hty]; reflexivity.
      * destruct Hq as [[H _]|(s & H & _)]; rewrite H in *;
          [apply Hpres | apply Hty]; reflexivity.
Qed.

Lemma C1_witness :
  (exists a,
      validateCreateServiceArgs
        (Some (JObj [ ("name", JStr "svc"); ("path", JStr "/tmp");
                      ("port", JStr "9000"); ("plan", JNum 3) ])) = inr a
      /\ CreateServiceArgs.port a = None)
  /\ rejected_as_invalid
       (validateGenerateRenderConfigArgs
          (Some (JObj [ ("name", JStr "svc"); ("path", JStr "/tmp");
                        ("port", JStr "9000"); ("plan", JNum 3) ]))).
Proof.
  destruct (C1_optional_fields_lenient_for_create_strict_for_generate
              (Some (JObj [ ("name", JStr "svc"); ("path", JStr "/tmp");
                            ("port", JStr "9000"); ("plan", JNum 3) ]))
              "svc" "/tmp" eq_refl eq_refl) as ((a & Ea & Hport & _) & _ & Hstrict).
  split.
  - exists a. split; [exact Ea|]. apply Hport. simpl. discriminate.
  - apply (Hstrict "plan").
    + simpl. right; right; left; reflexivity.
    + split; simpl; discriminate.
Defined.

(** ** The enumerations of [region] and [plan] *)

(** C7, counterexample. A [region] and a [plan] outside the advertised
    enumerations pass the validation and are kept as they are. *)
Lemma C7_counterexample :
  validateGenerateRenderConfigArgs
    (Some (JObj [ ("name", JStr "svc"); ("path", JStr "/tmp/svc");
                  ("region", JStr "mars"); ("plan", JStr "platinum") ]))
  = inr {| GenerateRenderConfigArgs.name := "svc";
           GenerateRenderConfigArgs.path := "/tmp/svc";
           GenerateRenderConfigArgs.envVars := None;
           GenerateRenderConfigArgs.serviceId := None;
           GenerateRenderConfigArgs.region := Some "mars";
           GenerateRenderConfigArgs.plan := Some "platinum" |}
  /\ ~ In "mars" region_enum
  /\ ~ In "platinum" plan_enum.
Proof.
  split; [reflexivity|].
  split; simpl; intros H; repeat (destruct H as [H|H]; [discriminate|]); exact H.
Qed.

(** C7, amended. The validation of [generate_render_config] checks the
    primitive type of [region] and [plan] only: a value that is present and
    not a string is rejected with [InvalidParams]; any string, inside or
    outside the advertised enumeration, is accepted and kept unchanged; so
    every validated [region] and [plan] is absent or the string supplied. *)
Theorem C7_region_and_plan_checked_for_type_only (raw : option value) :
  (wrong_type (get raw "region") "string" \/ wrong_type (get raw "plan") "string" ->
   rejected_as_invalid (validateGenerateRenderConfigArgs raw))
  /\ (forall a, validateGenerateRenderConfigArgs raw = inr a ->
      GenerateRenderConfigArgs.region a = as_string (get raw "region")
      /\ GenerateRenderConfigArgs.plan a = as_string (get raw "plan")
      /\ (get raw "region" = None \/ typeof (get raw "region") = "string")
      /\ (get raw "plan" = None \/ typeof (get raw "plan") = "string"))
  /\ (forall name path r q,
      validateGenerateRenderConfigArgs
        (Some (JObj [ ("name", JStr name); ("path", JStr path);
                      ("region", JStr r); ("plan", JStr q) ]))
      = inr {| GenerateRenderConfigArgs.name := name;
               GenerateRenderConfigArgs.path := path;
               GenerateRenderConfigArgs.envVars := None;
               GenerateRenderConfigArgs.serviceId := None;
               GenerateRenderConfigArgs.region := Some r;
               GenerateRenderConfigArgs.plan := Some q |}).
Proof.
  split; [|split].
  - intros H.
    destruct (validateGenerateRenderConfigArgs raw) as [e|a] eqn:E.
    + eapply rejected_by_code; [reflexivity|].
      eapply validateGenerateRenderConfigArgs_code; eassumption.
    + exfalso. apply validateGenerateRenderConfigArgs_inv in E.
      destruct E as (ps & -> & _ & _ & _ & _ & _ & Hr & Hq). simpl in H.
      destruct H as [[Hpres Hty]|[Hpres Hty]].
      * destruct Hr as [[H _]|(s & H & _)]; rewrite H in *;
          [apply Hpres | apply Hty]; reflexivity.
      * destruct Hq as [[H _]|(s & H & _)]; rewrite H in *;
          [apply Hpres | apply Hty]; reflexivity.
  - intros a E. apply validateGenerateRenderConfigArgs_inv in E.
    destruct E as (ps & -> & _ & _ & _ & _ & _ & Hr & Hq). simpl.
    destruct Hr as [[H ->]|(s & H & ->)]; rewrite H;
      destruct Hq as [[H' ->]|(s' & H' & ->)]; rewrite H'; simpl;
      repeat split; auto.
  - intros name path r q. reflexivity.
Qed.

(** ** The dispatcher over a logged file system *)

Section DispatchFacts.

Context {W : Type} {P : Path} (FS : FileSystem W).

Lemma callTool_create_logged cfg req a (log : Log) (w : W) :
  tool req = "create_deno_service" ->
  validateCreateServiceArgs (arguments req) = inr a ->
  @callTool _ P (logged FS) cfg req (log, w)
  = match run_calls FS (create_calls a) log w with
    | (Some t, s) => (Fulfilled (create_failed t), s)
    | (None, s) => (Fulfilled (created_text a), s)
    end.
Proof.
  intros Ht Ev. unfold callTool. rewrite Ht, String.eqb_refl, Ev.
  rewrite handleCreateService_logged.
  destruct (run_calls FS (create_calls a) log w) as [[t|] s]; reflexivity.
Qed.

Lemma callTool_generate_logged cfg req a (log : Log) (w : W) :
  tool req = "generate_render_config" ->
  validateGenerateRenderConfigArgs (arguments req) = inr a ->
  @callTool _ P (logged FS) cfg req (log, w)
  = match fs_call (generate_call cfg a) w with
    | (Some t, w') =>
        (Fulfilled (generate_failed t),
         ((log ++ [(generate_call cfg a, Some t)])%list, w'))
    | (None, w') =>
        (Fulfilled (generated_text cfg a),
         ((log ++ [(generate_call cfg a, None)])%list, w'))
    end.
Proof.
  intros Ht Ev. unfold callTool. rewrite Ht.
  change ("generate_render_config" =? "create_deno_service")%string with false.
  cbv iota. rewrite String.eqb_refl, Ev.
  rewrite handleGenerateRenderConfig_logged.
  destruct (fs_call (generate_call cfg a) w) as [[t|] w']; reflexivity.
Qed.



End DispatchFacts.


(** ** Directory creation and the order of the writes *)

(** C6, counterexample. On a volume where [/tmp/svc] does not exist,
    [generate_render_config] with [path: "/tmp/svc"] makes one call, the
    write of [/tmp/svc/render.yaml]; no directory is created before it, the
    write is rejected and the result is flagged as an error. *)
Lemma C6_counterexample :
  @callTool _ posix (logged SimFs.fs)
    (constructor_renderConfig (fun _ => None))
    {| tool := "generate_render_config";
       arguments := Some (JObj [ ("name", JStr "svc"); ("path", JStr "/tmp/svc") ]) |}
    ([], SimFs.tmp_only)
  = (Fulfilled
       (error_result
          "Failed to generate render config: ENOENT: no such file or directory, open '/tmp/svc/render.yaml'"),
     ([ (WriteFile "/tmp/svc/render.yaml"
           (JSON_stringify
              (JObj [ ("services",
                       JArr [ JObj [ ("type", JStr "web"); ("name", JStr "svc");
                                     ("env", JStr "deno"); ("region", JStr "oregon");
                                     ("plan", JStr "free"); ("buildCommand", JNull);
                                     ("startCommand", JStr "deno run --allow-net main.ts");
                                     ("envVars", JObj []) ] ]) ])),
         Some (ErrorInstance
                 "ENOENT: no such file or directory, open '/tmp/svc/render.yaml'")) ],
      SimFs.tmp_only)).
Proof. vm_compute. reflexivity. Qed.

(** C6, amended. [create_deno_service] first asks for the recursive creation
    of [resolve(path, name)] and, only once that call was fulfilled, writes
    [main.ts], [deno.json] and [README.md] in this order with plain
    (overwriting) writes, stopping at the first rejected call.
    [generate_render_config] creates no directory: its only file-system
    call is the write of [render.yaml] under [path]. *)
Theorem C6_create_makes_directory_first_generate_only_writes
    {W : Type} {P : Path} (FS : FileSystem W) (w : W) :
  (forall a r log w',
      @handleCreateService _ P (logged FS) a ([], w) = (r, (log, w')) ->
      exists pre last,
        log = (pre ++ [last])%list
        /\ Forall (fun c => snd c = None) pre
        /\ map fst log = firstn (List.length log) (create_calls a)
        /\ hd_error (map fst log)
           = Some (Mkdir (path_resolve (CreateServiceArgs.path a)
                                       (CreateServiceArgs.name a)) true)
        /\ (snd last = None -> map fst log = create_calls a))
  /\ (forall cfg a r log w',
      @handleGenerateRenderConfig _ P (logged FS) cfg a ([], w) = (r, (log, w')) ->
      map fst log
      = [ WriteFile (path_join (GenerateRenderConfigArgs.path a) "render.yaml")
                    (JSON_stringify (renderYaml cfg a)) ]).
Proof.
  split.
  - intros a r log w' E. rewrite handleCreateService_logged in E.
    destruct (run_calls FS (create_calls a) [] w) as [o [log1 w1]] eqn:Er.
    assert (log1 = log) as -> by (destruct o; congruence).
    pose proof Er as Er'. apply run_calls_log in Er'.
    destruct Er' as (done & Hd & [k Hk] & Hr). simpl in Hd. subst done.
    assert (Hlen : map fst log = firstn (List.length log) (create_calls a)).
    { rewrite <- (length_map fst log), Hk, length_firstn.
      destruct (Nat.le_ge_cases k (List.length (create_calls a))) as [Hle|Hge].
      - rewrite Nat.min_l by assumption. reflexivity.
      - rewrite Nat.min_r by assumption.
        rewrite firstn_all. apply firstn_all2. assumption. }
    assert (Hhd : log <> [] ->
                  hd_error (map fst log)
                  = Some (Mkdir (path_resolve (CreateServiceArgs.path a)
                                              (CreateServiceArgs.name a)) true)).
    { intros Hne. rewrite Hlen. destruct log; [congruence|]. reflexivity. }
    destruct o as [t|].
    + destruct Hr as (pre & op & -> & Hpre).
      exists pre, (op, Some t).
      split; [reflexivity|]. split; [assumption|]. split; [assumption|].
      split; [apply Hhd; destruct pre; discriminate | simpl; discriminate].
    + destruct Hr as [Hm Hall].
      destruct (exists_last (l := log)) as (pre & last & ->).
      { intros ->. discriminate. }
      exists pre, last.
      split; [reflexivity|]. split; [apply Forall_app in Hall; apply Hall|].
      split; [assumption|].
      split; [apply Hhd; destruct pre; discriminate | intros _; assumption].
  - intros cfg a r log w' E. rewrite handleGenerateRenderConfig_logged in E.
    destruct (fs_call (generate_call cfg a) w) as [[t|] w1];
      injection E as _ <- _; reflexivity.
Qed.

Lemma C6_witness :
  hd_error
    (map fst
       (fst (snd (@handleCreateService _ posix (logged SimFs.fs)
                    {| CreateServiceArgs.name := "svc";
                       CreateServiceArgs.path := "/tmp";
                       CreateServiceArgs.port := Some 9000%Z;
                       CreateServiceArgs.description := None |}
                    ([], SimFs.tmp_only)))))
  = Some (Mkdir "/tmp/svc" true).
Proof.
  destruct (@handleCreateService _ posix (logged SimFs.fs) _ ([], SimFs.tmp_only))
    as [r [log w']] eqn:E.
  destruct (proj1 (@C6_create_makes_directory_first_generate_only_writes
                     _ posix SimFs.fs SimFs.tmp_only) _ r log w' E)
    as (pre & last & _ & _ & _ & Hhd & _).
  exact Hhd.
Defined.

(** ** The deployment descriptor *)

Lemma descriptor_field_literal cfg a k :
  k <> "id" ->
  descriptor_field cfg a k = assoc k (service_literal cfg a).
Proof.
  intros Hk. unfold descriptor_field, service.
  assert (Hne : (k =? "id")%string = false) by (apply String.eqb_neq; exact Hk).
  destruct (GenerateRenderConfigArgs.serviceId a) as [id|]; [|reflexivity].
  destruct (negb (id =? "")%string); [|reflexivity].
  unfold service_literal. simpl.
  repeat match goal with
         | |- context [(k =? ?s)%string] =>
             destruct (k =? s)%string eqn:?; [reflexivity|]
         end.
  rewrite Hne. reflexivity.
Qed.

Lemma assoc_region cfg a :
  assoc "region" (service_literal cfg a)
  = Some (JStr (or_str_lit (or_str (GenerateRenderConfigArgs.region a)
                                   (RenderConfig.region cfg)) "oregon")).
Proof. reflexivity. Qed.

Lemma assoc_plan cfg a :
  assoc "plan" (service_literal cfg a)
  = Some (JStr (or_str_lit (GenerateRenderConfigArgs.plan a) "free")).
Proof. reflexivity. Qed.

Lemma or_str_lit_some (s d : string) : s <> "" -> or_str_lit (Some s) d = s.
Proof.
  intros H. unfold or_str_lit. apply String.eqb_neq in H. rewrite H. reflexivity.
Qed.

Lemma or_str_lit_unset (o : option string) (d : string) :
  unset o -> or_str_lit o d = d.
Proof. intros [-> | ->]; reflexivity. Qed.

Lemma or_str_l (a b : option string) (s : string) :
  a = Some s -> s <> "" -> or_str a b = a.
Proof.
  intros -> H. unfold or_str, truthy_str. apply String.eqb_neq in H. rewrite H.
  reflexivity.
Qed.

Lemma or_str_r (a b : option string) : unset a -> or_str a b = b.
Proof. intros [-> | ->]; reflexivity. Qed.

(** C2, counterexample. A validated call with an empty [region] and an
    empty [plan]: the descriptor has the default region and the plan
    [free], not the arguments supplied. *)
Lemma C2_counterexample :
  exists a,
    validateGenerateRenderConfigArgs
      (Some (JObj [ ("name", JStr "svc"); ("path", JStr "/tmp/svc");
                    ("region", JStr ""); ("plan", JStr "") ])) = inr a
    /\ GenerateRenderConfigArgs.region a = Some ""
    /\ GenerateRenderConfigArgs.plan a = Some ""
    /\ descriptor_field (constructor_renderConfig (fun _ => None)) a "region"
       = Some (JStr "oregon")
    /\ descriptor_field (constructor_renderConfig (fun _ => None)) a "plan"
       = Some (JStr "free").
Proof.
  eexists. split; [reflexivity|]. repeat split; reflexivity.
Qed.

(** C2, amended. For every validated [generate_render_config] call the
    file written is the serialization of [{services: [service]}] where the
    region of [service] is the [region] argument when it was supplied and is
    not empty, otherwise the value of [RENDER_REGION] when that is set and
    not empty, otherwise [oregon]; and its plan is the [plan] argument when
    it was supplied and is not empty, otherwise [free]. *)
Theorem C2_region_and_plan_precedence
    {W : Type} {P : Path} (FS : FileSystem W)
    (env : ProcessEnv) (req : CallToolRequest) (a : GenerateRenderConfigArgs.t)
    (w : W) :
  tool req = "generate_render_config" ->
  validateGenerateRenderConfigArgs (arguments req) = inr a ->
  let cfg := constructor_renderConfig env in
  (exists svc,
      svc = service cfg a
      /\ map fst (fst (snd (@server _ P (logged FS) env req ([], w))))
         = [ WriteFile (path_join (GenerateRenderConfigArgs.path a) "render.yaml")
                       (JSON_stringify (JObj [ ("services", JArr [ svc ]) ])) ])
  /\ (forall r, GenerateRenderConfigArgs.region a = Some r -> r <> "" ->
      descriptor_field cfg a "region" = Some (JStr r))
  /\ (forall d, unset (GenerateRenderConfigArgs.region a) ->
      env "RENDER_REGION" = Some d -> d <> "" ->
      descriptor_field cfg a "region" = Some (JStr d))
  /\ (unset (GenerateRenderConfigArgs.region a) -> unset (env "RENDER_REGION") ->
      descriptor_field cfg a "region" = Some (JStr "oregon"))
  /\ (forall p, GenerateRenderConfigArgs.plan a = Some p -> p <> "" ->
      descriptor_field cfg a "plan" = Some (JStr p))
  /\ (unset (GenerateRenderConfigArgs.plan a) ->
      descriptor_field cfg a "plan" = Some (JStr "free")).
Proof.
  intros Ht Ev cfg.
  split; [|split; [|split; [|split; [|split]]]].
  - exists (service cfg a). split; [reflexivity|].
    unfold server. fold cfg.
    rewrite (callTool_generate_logged FS cfg req a [] w Ht Ev).
    destruct (fs_call (generate_call cfg a) w) as [[t|] w']; reflexivity.
  - intros r Hr Hnz. rewrite descriptor_field_literal, assoc_region by discriminate.
    rewrite (or_str_l _ _ r Hr Hnz), Hr, or_str_lit_some by assumption. reflexivity.
  - intros d Hu Hd Hnz. rewrite descriptor_field_literal, assoc_region by discriminate.
    rewrite (or_str_r _ _ Hu). unfold cfg, constructor_renderConfig.
    cbn [RenderConfig.region]. rewrite Hd.
    rewrite (or_str_lit_some d "oregon" Hnz), (or_str_lit_some d "oregon" Hnz).
    reflexivity.
  - intros Hu He. rewrite descriptor_field_literal, assoc_region by discriminate.
    rewrite (or_str_r _ _ Hu). unfold cfg, constructor_renderConfig.
    cbn [RenderConfig.region]. rewrite (or_str_lit_unset _ _ He). reflexivity.
  - intros p Hp Hnz. rewrite descriptor_field_literal, assoc_plan by discriminate.
    rewrite Hp, or_str_lit_some by assumption. reflexivity.
  - intros Hu. rewrite descriptor_field_literal, assoc_plan by discriminate.
    rewrite (or_str_lit_unset _ _ Hu). reflexivity.
Qed.

Lemma C2_witness :
  descriptor_field
    (constructor_renderConfig
       (fun k => if (k =? "RENDER_REGION")%string then Some "frankfurt" else None))
    {| GenerateRenderConfigArgs.name := "svc";
       GenerateRenderConfigArgs.path := "/tmp/svc";
       GenerateRenderConfigArgs.envVars := None;
       GenerateRenderConfigArgs.serviceId := None;
       GenerateRenderConfigArgs.region := Some "ohio";
       GenerateRenderConfigArgs.plan := Some "team" |} "region"
  = Some (JStr "ohio").
Proof.
  refine (proj1 (proj2 (@C2_region_and_plan_precedence _ posix SimFs.fs
           (fun k => if (k =? "RENDER_REGION")%string then Some "frankfurt" else None)
           {| tool := "generate_render_config";
              arguments := Some (JObj [ ("name", JStr "svc"); ("path", JStr "/tmp/svc");
                                        ("plan", JStr "team"); ("region", JStr "ohio") ]) |}
           _ SimFs.tmp_only eq_refl eq_refl)) "ohio" eq_refl _).
  discriminate.
Defined.

(** C3, counterexample. A validated call that supplies the empty string as
    [serviceId]: the descriptor has no [id]. *)
Lemma C3_counterexample :
  exists a,
    validateGenerateRenderConfigArgs
      (Some (JObj [ ("name", JStr "svc"); ("path", JStr "/tmp/svc");
                    ("serviceId", JStr "") ])) = inr a
    /\ GenerateRenderConfigArgs.serviceId a = Some ""
    /\ descriptor_field (constructor_renderConfig (fun _ => None)) a "id" = None.
Proof.
  eexists. split; [reflexivity|]. split; reflexivity.
Qed.

(** C3, amended. For every validated [generate_render_config] call the
    file written is the serialization of [{services: [{type: "web", name,
    env: "deno", region, plan, buildCommand: null, startCommand: "deno run
    --allow-net main.ts", envVars, id?}]}], with the keys in this order;
    [envVars] is the argument, or the empty object when it was absent; the
    [id] comes last and is present exactly when a [serviceId] was supplied
    and is not empty. *)
Theorem C3_descriptor_file_and_optional_id
    {W : Type} {P : Path} (FS : FileSystem W)
    (env : ProcessEnv) (req : CallToolRequest) (a : GenerateRenderConfigArgs.t)
    (w : W) :
  tool req = "generate_render_config" ->
  validateGenerateRenderConfigArgs (arguments req) = inr a ->
  exists region plan envVars id_field,
    map fst (fst (snd (@server _ P (logged FS) env req ([], w))))
    = [ WriteFile
          (path_join (GenerateRenderConfigArgs.path a) "render.yaml")
          (JSON_stringify
             (JObj [ ("services",
                      JArr [ JObj ([ ("type", JStr "web");
                                     ("name", JStr (GenerateRenderConfigArgs.name a));
                                     ("env", JStr "deno");
                                     ("region", JStr region);
                                     ("plan", JStr plan);
                                     ("buildCommand", JNull);
                                     ("startCommand", JStr "deno run --allow-net main.ts");
                                     ("envVars", envVars) ] ++ id_field) ]) ])) ]
    /\ (forall e, GenerateRenderConfigArgs.envVars a = Some e -> envVars = e)
    /\ (GenerateRenderConfigArgs.envVars a = None -> envVars = JObj [])
    /\ (forall s, GenerateRenderConfigArgs.serviceId a = Some s -> s <> "" ->
        id_field = [ ("id", JStr s) ])
    /\ (unset (GenerateRenderConfigArgs.serviceId a) -> id_field = []).
Proof.
  intros Ht Ev.
  set (cfg := constructor_renderConfig env).
  exists (or_str_lit (or_str (GenerateRenderConfigArgs.region a)
                             (RenderConfig.region cfg)) "oregon"),
         (or_str_lit (GenerateRenderConfigArgs.plan a) "free"),
         (or_value_lit (GenerateRenderConfigArgs.envVars a) (JObj [])),
         (match GenerateRenderConfigArgs.serviceId a with
          | Some id => if negb (id =? "")%string then [ ("id", JStr id) ] else []
          | None => []
          end).
  split; [|split; [|split; [|split]]].
  - unfold server. fold cfg.
    rewrite (callTool_generate_logged FS cfg req a [] w Ht Ev).
    assert (Hcall :
      generate_call cfg a
      = WriteFile
          (path_join (GenerateRenderConfigArgs.path a) "render.yaml")
          (JSON_stringify
             (JObj [ ("services",
                      JArr [ JObj (service_literal cfg a
                                   ++ match GenerateRenderConfigArgs.serviceId a with
                                      | Some id =>
                                          if negb (id =? "")%string
                                          then [ ("id", JStr id) ] else []
                                      | None => []
                                      end)%list ]) ]))).
    { unfold generate_call, renderYaml, service.
      destruct (GenerateRenderConfigArgs.serviceId a) as [id|];
        [destruct (negb (id =? "")%string)|]; try rewrite app_nil_r; reflexivity. }
    destruct (fs_call (generate_call cfg a) w) as [[t|] w']; simpl;
      rewrite Hcall; reflexivity.
  - apply validateGenerateRenderConfigArgs_inv in Ev.
    destruct Ev as (ps & _ & _ & _ & He & Hobj & _).
    intros e Hsome. rewrite Hsome in *. symmetry in He.
    destruct Hobj as [H|[[xs H]|[qs H]]]; rewrite H in He;
      try discriminate; injection He as <-; reflexivity.
  - intros ->. reflexivity.
  - intros s -> Hnz. apply String.eqb_neq in Hnz. rewrite Hnz. reflexivity.
  - intros [-> | ->]; reflexivity.
Qed.

Lemma C3_witness :
  exists region plan envVars,
    map fst (fst (snd (@server _ posix (logged SimFs.fs) (fun _ => None)
                         {| tool := "generate_render_config";
                            arguments :=
                              Some (JObj [ ("name", JStr "svc");
                                           ("path", JStr "/tmp");
                                           ("serviceId", JStr "srv-123") ]) |}
                         ([], SimFs.tmp_only))))
    = [ WriteFile "/tmp/render.yaml"
          (JSON_stringify
             (JObj [ ("services",
                      JArr [ JObj [ ("type", JStr "web");
                                    ("name", JStr "svc");
                                    ("env", JStr "deno");
                                    ("region", JStr region);
                                    ("plan", JStr plan);
                                    ("buildCommand", JNull);
                                    ("startCommand", JStr "deno run --allow-net main.ts");
                                    ("envVars", envVars);
                                    ("id", JStr "srv-123") ] ]) ])) ].
Proof.
  destruct (@C3_descriptor_file_and_optional_id _ posix SimFs.fs (fun _ => None)
              {| tool := "generate_render_config";
                 arguments :=
                   Some (JObj [ ("name", JStr "svc");
                                ("path", JStr "/tmp");
                                ("serviceId", JStr "srv-123") ]) |}
              _ SimFs.tmp_only eq_refl eq_refl)
    as (region & plan & envVars & id_field & Hlog & _ & _ & Hid & _).
  exists region, plan, envVars.
  rewrite (Hid "srv-123" eq_refl ltac:(discriminate)) in Hlog.
  exact Hlog.
Defined.

(** ** The entrypoint file *)

(** C8, counterexample. A validated call that supplies the port 0: the
    entrypoint binds the listener to 8000, not to the port supplied. *)
Lemma C8_counterexample :
  exists a,
    validateCreateServiceArgs
      (Some (JObj [ ("name", JStr "svc"); ("path", JStr "/tmp");
                    ("port", JNum 0) ])) = inr a
    /\ CreateServiceArgs.port a = Some 0%Z
    /\ mainContent a = main_head ++ "8000" ++ main_tail
    /\ mainContent a <> main_head ++ Number_toString 0 ++ main_tail.
Proof.
  eexists. split; [reflexivity|]. split; [reflexivity|]. split; [reflexivity|].
  vm_compute. discriminate.
Qed.

(** C8, amended. For every validated [create_deno_service] call the
    entrypoint is a fixed text in which only the port varies: the listener
    binds to [port] when it was supplied and is not zero, and to 8000 when
    it was absent or zero.  That text is what the second file-system call
    of the handler writes to [main.ts]. *)
Theorem C8_entrypoint_binds_nonzero_port_or_8000
    {W : Type} {P : Path} (FS : FileSystem W)
    (raw : option value) (a : CreateServiceArgs.t) (w : W) :
  validateCreateServiceArgs raw = inr a ->
  (forall p, CreateServiceArgs.port a = Some p -> p <> 0%Z ->
      mainContent a = main_head ++ Number_toString p ++ main_tail)
  /\ (CreateServiceArgs.port a = None \/ CreateServiceArgs.port a = Some 0%Z ->
      mainContent a = main_head ++ "8000" ++ main_tail)
  /\ (forall op,
      nth_error
        (map fst (fst (snd (@handleCreateService _ P (logged FS) a ([], w))))) 1
      = Some op ->
      op = WriteFile
             (path_join (path_resolve (CreateServiceArgs.path a)
                                      (CreateServiceArgs.name a)) "main.ts")
             (mainContent a)).
Proof.
  intros Ev. split; [|split].
  - intros p Hp Hnz. unfold mainContent. rewrite Hp. unfold or_num_lit.
    apply Z.eqb_neq in Hnz. rewrite Hnz. reflexivity.
  - intros [H|H]; unfold mainContent; rewrite H; reflexivity.
  - intros op Hop.
    destruct (@handleCreateService _ P (logged FS) a ([], w)) as [r [log w']] eqn:E.
    rewrite handleCreateService_logged in E.
    destruct (run_calls FS (create_calls a) [] w) as [o [log1 w1]] eqn:Er.
    assert (log1 = log) as -> by (destruct o; congruence).
    apply run_calls_log in Er. destruct Er as (done & Hd & [k Hk] & _).
    simpl in Hd. subst done. simpl in Hop. rewrite Hk in Hop.
    destruct k as [|[|k]]; simpl in Hop; try discriminate.
    injection Hop as <-. reflexivity.
Qed.

Lemma C8_witness :
  mainContent
    {| CreateServiceArgs.name := "svc"; CreateServiceArgs.path := "/tmp";
       CreateServiceArgs.port := Some 9000%Z;
       CreateServiceArgs.description := None |}
  = main_head ++ "9000" ++ main_tail.
Proof.
  refine (proj1 (@C8_entrypoint_binds_nonzero_port_or_8000 _ posix SimFs.fs
                   (Some (JObj [ ("name", JStr "svc"); ("path", JStr "/tmp");
                                 ("port", JNum 9000) ]))
                   _ SimFs.tmp_only eq_refl) 9000%Z eq_refl _).
  discriminate.
Defined.

(** ** The API key *)

Lemma generate_call_region cfg1 cfg2 (P : Path) a :
  RenderConfig.region cfg1 = RenderConfig.region cfg2 ->
  generate_call cfg1 a = generate_call cfg2 a.
Proof.
  intros H. unfold generate_call, renderYaml, service, service_literal.
  rewrite H. reflexivity.
Qed.

Lemma configMessage_cases cfg :
  (truthy_str (RenderConfig.apiKey cfg) = true
   /\ configMessage cfg = "Using global render.com configuration from MCP settings.")
  \/ (unset (RenderConfig.apiKey cfg)
      /\ configMessage cfg
         = "Note: No global render.com API key found. You may need to configure this in your MCP settings.").
Proof.
  unfold configMessage, unset.
  destruct (RenderConfig.apiKey cfg) as [k|]; simpl.
  - destruct (k =? "")%string eqn:E; simpl.
    + right. apply String.eqb_eq in E. subst k. split; [right|]; reflexivity.
    + left. split; reflexivity.
  - right. split; [left|]; reflexivity.
Qed.

(** C10, counterexample. Two runs of [generate_render_config] whose
    environments both set [RENDER_API_KEY] and differ only in its value,
    empty in one and not in the other, answer with different texts. *)
Lemma C10_counterexample :
  (fun k : string => if (k =? "RENDER_API_KEY")%string then Some "" else None)
    "RENDER_API_KEY" <> None
  /\ (fun k : string => if (k =? "RENDER_API_KEY")%string then Some "rnd_1" else None)
       "RENDER_API_KEY" <> None
  /\ fst (@server _ posix SimFs.fs
            (fun k => if (k =? "RENDER_API_KEY")%string then Some "" else None)
            {| tool := "generate_render_config";
               arguments := Some (JObj [ ("name", JStr "svc"); ("path", JStr "/tmp") ]) |}
            SimFs.tmp_only)
     <> fst (@server _ posix SimFs.fs
               (fun k => if (k =? "RENDER_API_KEY")%string then Some "rnd_1" else None)
               {| tool := "generate_render_config";
                  arguments := Some (JObj [ ("name", JStr "svc"); ("path", JStr "/tmp") ]) |}
               SimFs.tmp_only).
Proof.
  split; [simpl; discriminate|]. split; [simpl; discriminate|].
  vm_compute. discriminate.
Qed.

(** C10, amended. The outputs depend on [RENDER_API_KEY] only through
    whether it is set to a non-empty value.  For two environments that
    agree on every other variable, and any request: the file-system calls
    (paths and contents) and the resulting file system are the same; the
    answers are the same when the key is non-empty in both or in neither,
    and always for [create_deno_service]; otherwise they differ at most in
    the advisory line that ends the success text of
    [generate_render_config], which is one of two fixed sentences chosen by
    the key being non-empty. *)
Theorem C10_api_key_matters_only_by_being_nonempty
    {W : Type} {P : Path} (FS : FileSystem W)
    (env1 env2 : ProcessEnv) (req : CallToolRequest) (w : W) :
  (forall k, k <> "RENDER_API_KEY" -> env1 k = env2 k) ->
  let out1 := @server _ P (logged FS) env1 req ([], w) in
  let out2 := @server _ P (logged FS) env2 req ([], w) in
  snd out1 = snd out2
  /\ (truthy_str (env1 "RENDER_API_KEY") = truthy_str (env2 "RENDER_API_KEY") ->
      fst out1 = fst out2)
  /\ (tool req = "create_deno_service" -> fst out1 = fst out2)
  /\ (fst out1 = fst out2
      \/ exists common,
           fst out1 = Fulfilled (text_result
                        (common ++ configMessage (constructor_renderConfig env1)))
           /\ fst out2 = Fulfilled (text_result
                           (common ++ configMessage (constructor_renderConfig env2))))
  /\ (forall env,
      configMessage (constructor_renderConfig env)
      = (if truthy_str (env "RENDER_API_KEY")
         then "Using global render.com configuration from MCP settings."
         else "Note: No global render.com API key found. You may need to configure this in your MCP settings.")).
Proof.
  intros Hagree out1 out2.
  rewrite <- and_assoc, <- and_assoc, <- and_assoc.
  split; [rewrite !and_assoc | intros env; reflexivity].
  assert (Hreg : RenderConfig.region (constructor_renderConfig env1)
                 = RenderConfig.region (constructor_renderConfig env2)).
  { simpl. rewrite (Hagree "RENDER_REGION") by discriminate. reflexivity. }
  assert (Hmsg : truthy_str (env1 "RENDER_API_KEY") = truthy_str (env2 "RENDER_API_KEY") ->
                 configMessage (constructor_renderConfig env1)
                 = configMessage (constructor_renderConfig env2)).
  { intros H. unfold configMessage. simpl. rewrite H. reflexivity. }
  unfold out1, out2, server.
  destruct (tool req =? "create_deno_service")%string eqn:Ec.
  - assert (E : @callTool _ P (logged FS) (constructor_renderConfig env1) req ([], w)
                = @callTool _ P (logged FS) (constructor_renderConfig env2) req ([], w)).
    { unfold callTool. rewrite Ec. reflexivity. }
    rewrite E. repeat split; auto.
  - destruct (tool req =? "generate_render_config")%string eqn:Eg.
    + apply String.eqb_eq in Eg.
      destruct (validateGenerateRenderConfigArgs (arguments req)) as [e|a] eqn:Ev.
      * assert (E : @callTool _ P (logged FS) (constructor_renderConfig env1) req ([], w)
                    = @callTool _ P (logged FS) (constructor_renderConfig env2) req ([], w)).
        { unfold callTool. rewrite Ec, Ev.
          destruct (tool req =? "generate_render_config")%string; reflexivity. }
        rewrite E. repeat split; auto.
      * rewrite !(callTool_generate_logged FS _ req a [] w Eg Ev).
        rewrite (generate_call_region _ _ P a Hreg).
        destruct (fs_call (generate_call (constructor_renderConfig env2) a) w)
          as [[t|] w'].
        -- repeat split; auto.
        -- simpl. split; [reflexivity|]. split; [|split].
           ++ intros H. unfold generated_text. rewrite (Hmsg H). reflexivity.
           ++ intros Hc. rewrite Hc in Ec. discriminate.
           ++ right.
              exists ("Generated render.yaml configuration at "
                      ++ path_join (GenerateRenderConfigArgs.path a) "render.yaml" ++ nl).
              unfold generated_text.
              rewrite <- !string_app_assoc. split; reflexivity.
    + assert (E : @callTool _ P (logged FS) (constructor_renderConfig env1) req ([], w)
                  = @callTool _ P (logged FS) (constructor_renderConfig env2) req ([], w)).
      { unfold callTool. rewrite Ec, Eg. reflexivity. }
      rewrite E. repeat split; auto.
Qed.

Lemma C7_witness :
  rejected_as_invalid
    (validateGenerateRenderConfigArgs
       (Some (JObj [ ("name", JStr "svc"); ("path", JStr "/tmp/svc");
                     ("region", JArr [ JStr "ohio" ]) ]))).
Proof.
  apply (proj1 (C7_region_and_plan_checked_for_type_only _)).
  left. split; simpl; discriminate.
Defined.

Lemma C10_witness :
  @server _ posix (logged SimFs.fs)
    (fun k => if (k =? "RENDER_API_KEY")%string then Some "rnd_1" else None)
    {| tool := "generate_render_config";
       arguments := Some (JObj [ ("name", JStr "svc"); ("path", JStr "/tmp") ]) |}
    ([], SimFs.tmp_only)
  = @server _ posix (logged SimFs.fs)
      (fun k => if (k =? "RENDER_API_KEY")%string then Some "rnd_2" else None)
      {| tool := "generate_render_config";
         arguments := Some (JObj [ ("name", JStr "svc"); ("path", JStr "/tmp") ]) |}
      ([], SimFs.tmp_only).
Proof.
  assert (Hagree : forall k : string, k <> "RENDER_API_KEY" ->
            (fun k => if (k =? "RENDER_API_KEY")%string then Some "rnd_1" else None) k
            = (fun k => if (k =? "RENDER_API_KEY")%string then Some "rnd_2" else None) k).
  { intros k Hk. apply String.eqb_neq in Hk. simpl. rewrite Hk. reflexivity. }
  destruct (@C10_api_key_matters_only_by_being_nonempty _ posix SimFs.fs _ _
              {| tool := "generate_render_config";
                 arguments := Some (JObj [ ("name", JStr "svc"); ("path", JStr "/tmp") ]) |}
              SimFs.tmp_only Hagree) as (Hfs & Hres & _).
  apply injective_projections; [apply Hres; reflexivity | exact Hfs].
Defined.

(** ** Scenarios of the specification, run on the reference environment *)

Example scenario_create_with_port_9000 :
  let '(out, s) :=
    @server _ posix SimFs.fs (fun _ => None)
      {| tool := "create_deno_service";
         arguments := Some (JObj [ ("name", JStr "svc"); ("path", JStr "/tmp");
                                   ("port", JNum 9000) ]) |}
      SimFs.tmp_only in
  out = Fulfilled (text_result "Successfully created Deno service at /tmp/svc")
  /\ SimFs.dirs s = [ "/tmp"; "/tmp/svc" ]
  /\ map fst (SimFs.files s)
     = [ "/tmp/svc/main.ts"; "/tmp/svc/deno.json"; "/tmp/svc/README.md" ]
  /\ SimFs.read "/tmp/svc/main.ts" (SimFs.files s)
     = Some (main_head ++ "9000" ++ main_tail)
  /\ SimFs.read "/tmp/svc/deno.json" (SimFs.files s)
     = Some (JSON_stringify denoConfig).
Proof. vm_compute. repeat split; reflexivity. Qed.

Example scenario_create_twice_overwrites :
  let first :=
    snd (@server _ posix SimFs.fs (fun _ => None)
           {| tool := "create_deno_service";
              arguments := Some (JObj [ ("name", JStr "svc"); ("path", JStr "/tmp");
                                        ("port", JNum 9000) ]) |}
           SimFs.tmp_only) in
  let '(out, s) :=
    @server _ posix SimFs.fs (fun _ => None)
      {| tool := "create_deno_service";
         arguments := Some (JObj [ ("name", JStr "svc"); ("path", JStr "/tmp");
                                   ("port", JNum 3000) ]) |}
      first in
  out = Fulfilled (text_result "Successfully created Deno service at /tmp/svc")
  /\ SimFs.dirs s = SimFs.dirs first
  /\ map fst (SimFs.files s) = map fst (SimFs.files first)
  /\ SimFs.read "/tmp/svc/main.ts" (SimFs.files s)
     = Some (main_head ++ "3000" ++ main_tail).
Proof. vm_compute. repeat split; reflexivity. Qed.

Example scenario_generate_plan_team_region_ohio :
  let a := {| GenerateRenderConfigArgs.name := "svc";
              GenerateRenderConfigArgs.path := "/tmp/svc";
              GenerateRenderConfigArgs.envVars := None;
              GenerateRenderConfigArgs.serviceId := None;
              GenerateRenderConfigArgs.region := Some "ohio";
              GenerateRenderConfigArgs.plan := Some "team" |} in
  validateGenerateRenderConfigArgs
    (Some (JObj [ ("name", JStr "svc"); ("path", JStr "/tmp/svc");
                  ("plan", JStr "team"); ("region", JStr "ohio") ])) = inr a
  /\ descriptor_field (constructor_renderConfig (fun _ => None)) a "region"
     = Some (JStr "ohio")
  /\ descriptor_field (constructor_renderConfig (fun _ => None)) a "plan"
     = Some (JStr "team")
  /\ descriptor_field (constructor_renderConfig (fun _ => None)) a "id" = None.
Proof. repeat split; reflexivity. Qed.

Example scenario_generate_with_serviceId :
  let env := fun k : string =>
               if (k =? "RENDER_REGION")%string then Some "frankfurt" else None in
  let a := {| GenerateRenderConfigArgs.name := "svc";
              GenerateRenderConfigArgs.path := "/tmp/svc";
              GenerateRenderConfigArgs.envVars := None;
              GenerateRenderConfigArgs.serviceId := Some "srv-123";
              GenerateRenderConfigArgs.region := None;
              GenerateRenderConfigArgs.plan := None |} in
  validateGenerateRenderConfigArgs
    (Some (JObj [ ("name", JStr "svc"); ("path", JStr "/tmp/svc");
                  ("serviceId", JStr "srv-123") ])) = inr a
  /\ descriptor_field (constructor_renderConfig env) a "id" = Some (JStr "srv-123")
  /\ descriptor_field (constructor_renderConfig env) a "region"
     = Some (JStr "frankfurt").
Proof. repeat split; reflexivity. Qed.

Example scenario_write_denied :
  @server _ posix SimFs.fs (fun _ => None)
    {| tool := "generate_render_config";
       arguments := Some (JObj [ ("name", JStr "svc"); ("path", JStr "/tmp") ]) |}
    (SimFs.mk [ "/tmp" ] [] true)
  = (Fulfilled
       (error_result
          "Failed to generate render config: EROFS: read-only file system, open '/tmp/render.yaml'"),
     SimFs.mk [ "/tmp" ] [] true).
Proof. vm_compute. reflexivity. Qed.

Example scenario_unknown_tool :
  @server _ posix SimFs.fs (fun _ => None)
    {| tool := "deploy"; arguments := Some (JObj []) |} SimFs.tmp_only
  = (RejectedMcp (mkMcpError MethodNotFound "Unknown tool: deploy"), SimFs.tmp_only).
Proof. reflexivity. Qed.

(* ================================================================== *)
(** * Part III: further properties of the code                         *)
(* ================================================================== *)

(** ** The registry and the dispatcher *)

Lemma tool_names_listTools :
  tool_names listTools = [ "create_deno_service"; "generate_render_config" ].
Proof. reflexivity. Qed.

(** X1. The dispatcher knows exactly the tools that the listing
    advertises: a request for a name that is not listed is rejected with
    [MethodNotFound] and the text [Unknown tool: <name>], without any
    file-system call; a request for a listed name is never rejected with
    [MethodNotFound]. *)
Theorem X1_method_not_found_iff_tool_not_listed
    {W : Type} {P : Path} (FS : FileSystem W)
    (cfg : RenderConfig.t) (req : CallToolRequest)
    (log : list (FsOp * option Thrown)) (w : W) :
  (~ In (tool req) (tool_names listTools) ->
   @callTool _ P (logged FS) cfg req (log, w)
   = (RejectedMcp (mkMcpError MethodNotFound ("Unknown tool: " ++ tool req)), (log, w)))
  /\ (In (tool req) (tool_names listTools) ->
      forall m, fst (@callTool _ P (logged FS) cfg req (log, w))
                <> RejectedMcp (mkMcpError MethodNotFound m)).
Proof.
  rewrite tool_names_listTools. split.
  - intros Hn. unfold callTool.
    destruct (tool req =? "create_deno_service")%string eqn:Ec.
    + apply String.eqb_eq in Ec. exfalso. apply Hn. left. symmetry. exact Ec.
    + destruct (tool req =? "generate_render_config")%string eqn:Eg.
      * apply String.eqb_eq in Eg. exfalso. apply Hn. right. left. symmetry. exact Eg.
      * reflexivity.
  - intros [Hc|[Hg|[]]] m.
    + destruct (validateCreateServiceArgs (arguments req)) as [e|a] eqn:Ev.
      * unfold callTool. rewrite <- Hc, String.eqb_refl, Ev. simpl.
        intros E. injection E as ->.
        apply validateCreateServiceArgs_code in Ev. discriminate.
      * rewrite (callTool_create_logged FS cfg req a log w (eq_sym Hc) Ev).
        destruct (run_calls FS (create_calls a) log w) as [[t|] s]; simpl; discriminate.
    + destruct (validateGenerateRenderConfigArgs (arguments req)) as [e|a] eqn:Ev.
      * unfold callTool. rewrite <- Hg. simpl. rewrite Ev. simpl.
        intros E. injection E as ->.
        apply validateGenerateRenderConfigArgs_code in Ev. discriminate.
      * rewrite (callTool_generate_logged FS cfg req a log w (eq_sym Hg) Ev).
        destruct (fs_call (generate_call cfg a) w) as [[t|] s]; simpl; discriminate.
Qed.

Lemma X1_witness :
  @callTool _ posix (logged SimFs.fs) (constructor_renderConfig (fun _ => None))
    {| tool := "Create_Deno_Service"; arguments := Some (JObj []) |}
    ([], SimFs.tmp_only)
  = (RejectedMcp (mkMcpError MethodNotFound "Unknown tool: Create_Deno_Service"),
     ([], SimFs.tmp_only)).
Proof.
  refine (proj1 (@X1_method_not_found_iff_tool_not_listed _ posix SimFs.fs
                   (constructor_renderConfig (fun _ => None))
                   {| tool := "Create_Deno_Service"; arguments := Some (JObj []) |}
                   [] SimFs.tmp_only) _).
  rewrite tool_names_listTools. simpl.
  intros [H|[H|[]]]; discriminate H.
Defined.

(** ** What the validators accept *)

Lemma typeof_string_get (raw : option value) (k : string) :
  typeof (get raw k) = "string" -> exists s, get raw k = Some (JStr s).
Proof.
  destruct (get raw k) as [[ | | | s | | ]|]; simpl; try discriminate.
  intros _. exists s. reflexivity.
Qed.

(** X2. [validateCreateServiceArgs] accepts exactly the arguments whose
    [name] and [path] are strings, whatever else they hold, and returns
    those two strings. *)
Theorem X2_create_accepts_iff_name_and_path_are_strings (raw : option value) :
  ((exists a, validateCreateServiceArgs raw = inr a)
   <-> typeof (get raw "name") = "string" /\ typeof (get raw "path") = "string")
  /\ (forall a, validateCreateServiceArgs raw = inr a ->
      get raw "name" = Some (JStr (CreateServiceArgs.name a))
      /\ get raw "path" = Some (JStr (CreateServiceArgs.path a))).
Proof.
  split; [split|].
  - intros [a Ev]. apply validateCreateServiceArgs_inv in Ev.
    destruct Ev as (ps & -> & Hn & Hp & _). simpl. rewrite Hn, Hp. split; reflexivity.
  - intros [Hn Hp].
    destruct (typeof_string_get _ _ Hn) as [n En].
    destruct (typeof_string_get _ _ Hp) as [p Ep].
    destruct (get_some_inv _ _ _ En) as (ps & -> & En').
    simpl in Ep. eexists. apply validateCreateServiceArgs_ok; eassumption.
  - intros a Ev. apply validateCreateServiceArgs_inv in Ev.
    destruct Ev as (ps & -> & Hn & Hp & _). simpl. split; assumption.
Qed.

Lemma validateGenerateRenderConfigArgs_ok (ps : list (string * value))
    (name path : string) :
  assoc "name" ps = Some (JStr name) ->
  assoc "path" ps = Some (JStr path) ->
  absent_or_object (assoc "envVars" ps) ->
  absent_or_string (assoc "serviceId" ps) ->
  absent_or_string (assoc "region" ps) ->
  absent_or_string (assoc "plan" ps) ->
  validateGenerateRenderConfigArgs (Some (JObj ps))
  = inr {| GenerateRenderConfigArgs.name := name;
           GenerateRenderConfigArgs.path := path;
           GenerateRenderConfigArgs.envVars := assoc "envVars" ps;
           GenerateRenderConfigArgs.serviceId := as_string (assoc "serviceId" ps);
           GenerateRenderConfigArgs.region := as_string (assoc "region" ps);
           GenerateRenderConfigArgs.plan := as_string (assoc "plan" ps) |}.
Proof.
  intros Hn Hp He Hs Hr Hq. unfold validateGenerateRenderConfigArgs. simpl.
  rewrite Hn, Hp.
  assert (E1 : negb (is_undefined (assoc "envVars" ps))
               && (negb (typeof (assoc "envVars" ps) =? "object")
                   || is_null (assoc "envVars" ps)) = false).
  { destruct He as [-> | [Ht Hnn]]; [reflexivity|].
    destruct (assoc "envVars" ps) as [[ | | | | | ]|]; simpl in *;
      try discriminate; try reflexivity. exfalso. apply Hnn. reflexivity. }
  assert (E2 : forall v, absent_or_string v ->
               negb (is_undefined v) && negb (typeof v =? "string") = false).
  { intros v [-> | Ht]; [reflexivity|]. rewrite Ht. simpl. apply andb_false_r. }
  rewrite E1, (E2 _ Hs), (E2 _ Hr), (E2 _ Hq). reflexivity.
Qed.

(** X3. [validateGenerateRenderConfigArgs] accepts exactly the arguments
    whose [name] and [path] are strings, whose [envVars] is absent or a
    non-null object (an array passes, and the values inside are not
    looked at), and whose [serviceId], [region] and [plan] are each absent
    or a string. *)
Theorem X3_generate_accepts_iff_fields_well_typed (raw : option value) :
  (exists a, validateGenerateRenderConfigArgs raw = inr a)
  <-> typeof (get raw "name") = "string"
      /\ typeof (get raw "path") = "string"
      /\ absent_or_object (get raw "envVars")
      /\ absent_or_string (get raw "serviceId")
      /\ absent_or_string (get raw "region")
      /\ absent_or_string (get raw "plan").
Proof.
  split.
  - intros [a Ev]. apply validateGenerateRenderConfigArgs_inv in Ev.
    destruct Ev as (ps & -> & Hn & Hp & _ & He & Hs & Hr & Hq). simpl.
    rewrite Hn, Hp. repeat split.
    + destruct He as [->|[[xs ->]|[qs ->]]];
        [left; reflexivity | right; split; [reflexivity|discriminate] ..].
    + destruct Hs as [[-> _]|(s & -> & _)]; [left|right]; reflexivity.
    + destruct Hr as [[-> _]|(s & -> & _)]; [left|right]; reflexivity.
    + destruct Hq as [[-> _]|(s & -> & _)]; [left|right]; reflexivity.
  - intros (Hn & Hp & He & Hs & Hr & Hq).
    destruct (typeof_string_get _ _ Hn) as [n En].
    destruct (typeof_string_get _ _ Hp) as [p Ep].
    destruct (get_some_inv _ _ _ En) as (ps & -> & En').
    simpl in *. eexists. apply validateGenerateRenderConfigArgs_ok; eassumption.
Qed.

(** X4. The validators report the first check that fails, in the order:
    the arguments are an object, [name], [path], and for
    [generate_render_config] then [envVars], [serviceId], [region],
    [plan].  An array passes the first check (it is an object) and fails
    at [name]. *)
Theorem X4_validators_report_first_failed_check (raw : option value) :
  let create := validateCreateServiceArgs raw in
  let generate := validateGenerateRenderConfigArgs raw in
  (typeof raw <> "object" \/ raw = Some JNull ->
   create = throw InvalidParams "Arguments must be an object"
   /\ generate = throw InvalidParams "Arguments must be an object")
  /\ (typeof raw = "object" -> raw <> Some JNull ->
      typeof (get raw "name") <> "string" ->
      create = throw InvalidParams "name must be a string"
      /\ generate = throw InvalidParams "name must be a string")
  /\ ((exists xs, raw = Some (JArr xs)) ->
      create = throw InvalidParams "name must be a string"
      /\ generate = throw InvalidParams "name must be a string")
  /\ (typeof (get raw "name") = "string" -> typeof (get raw "path") <> "string" ->
      create = throw InvalidParams "path must be a string"
      /\ generate = throw InvalidParams "path must be a string")
  /\ (typeof (get raw "name") = "string" -> typeof (get raw "path") = "string" ->
      (not_an_object (get raw "envVars") ->
       generate = throw InvalidParams "envVars must be an object if provided")
      /\ (absent_or_object (get raw "envVars") ->
          wrong_type (get raw "serviceId") "string" ->
          generate = throw InvalidParams "serviceId must be a string if provided")
      /\ (absent_or_object (get raw "envVars") ->
          absent_or_string (get raw "serviceId") ->
          wrong_type (get raw "region") "string" ->
          generate = throw InvalidParams "region must be a string if provided")
      /\ (absent_or_object (get raw "envVars") ->
          absent_or_string (get raw "serviceId") ->
          absent_or_string (get raw "region") ->
          wrong_type (get raw "plan") "string" ->
          generate = throw InvalidParams "plan must be a string if provided")).
Proof.
  intros create generate. unfold create, generate.
  unfold validateCreateServiceArgs, validateGenerateRenderConfigArgs.
  assert (Hobj : forall v, absent_or_object v ->
                 negb (is_undefined v)
                 && (negb (typeof v =? "object") || is_null v) = false).
  { intros v [-> | [Ht Hnn]]; [reflexivity|].
    destruct v as [[ | | | | | ]|]; simpl in *; try discriminate; try reflexivity.
    exfalso. apply Hnn. reflexivity. }
  assert (Hstr : forall v, absent_or_string v ->
                 negb (is_undefined v) && negb (typeof v =? "string") = false).
  { intros v [-> | Ht]; [reflexivity|]. rewrite Ht. simpl. apply andb_false_r. }
  assert (Hbad : forall v, wrong_type v "string" ->
                 negb (is_undefined v) && negb (typeof v =? "string") = true).
  { intros v [Hp Ht]. destruct v as [x|]; [|exfalso; apply Hp; reflexivity].
    simpl. apply negb_true_iff. apply String.eqb_neq. exact Ht. }
  split; [|split; [|split; [|split]]].
  - intros [H|H].
    + apply String.eqb_neq in H. rewrite H. simpl. split; reflexivity.
    + subst raw. simpl. split; reflexivity.
  - intros Ho Hnn Hn. rewrite Ho. simpl.
    assert (is_null raw = false) as ->.
    { destruct raw as [[ | | | | | ]|]; try reflexivity. exfalso. apply Hnn. reflexivity. }
    destruct (get raw "name") as [[ | | | s | | ]|]; try (split; reflexivity).
    exfalso. apply Hn. reflexivity.
  - intros [xs ->]. simpl. split; reflexivity.
  - intros Hn Hp.
    destruct (typeof_string_get _ _ Hn) as [n En].
    destruct (get_some_inv _ _ _ En) as (ps & -> & En').
    simpl in *. rewrite En'.
    destruct (assoc "path" ps) as [[ | | | s | | ]|]; try (split; reflexivity).
    exfalso. apply Hp. reflexivity.
  - intros Hn Hp.
    destruct (typeof_string_get _ _ Hn) as [n En].
    destruct (typeof_string_get _ _ Hp) as [p Ep].
    destruct (get_some_inv _ _ _ En) as (ps & -> & En').
    simpl in *. rewrite En', Ep.
    split; [|split; [|split]].
    + intros [Hpres Hty].
      destruct (assoc "envVars" ps) as [[ | | | | | ]|]; simpl in *; try reflexivity;
        try (exfalso; apply Hpres; reflexivity);
        destruct Hty as [Hty|Hty]; solve [exfalso; apply Hty; reflexivity | discriminate].
    + intros He Hs. rewrite (Hobj _ He), (Hbad _ Hs). reflexivity.
    + intros He Hs Hr. rewrite (Hobj _ He), (Hstr _ Hs), (Hbad _ Hr). reflexivity.
    + intros He Hs Hr Hq.
      rewrite (Hobj _ He), (Hstr _ Hs), (Hstr _ Hr), (Hbad _ Hq). reflexivity.
Qed.

Lemma X4_witness :
  validateGenerateRenderConfigArgs
    (Some (JObj [ ("name", JStr "svc"); ("path", JStr "/tmp");
                  ("plan", JNum 1); ("region", JNull) ]))
  = throw InvalidParams "region must be a string if provided".
Proof.
  refine (proj1 (proj2 (proj2 (proj2 (proj2 (proj2 (proj2
            (X4_validators_report_first_failed_check
               (Some (JObj [ ("name", JStr "svc"); ("path", JStr "/tmp");
                             ("plan", JNum 1); ("region", JNull) ]))))))
            eq_refl eq_refl))) _ _ _).
  - left; reflexivity.
  - left; reflexivity.
  - split; simpl; discriminate.
Defined.

(** X5. The validators read the properties they destructure and no
    other: two argument objects that agree on [name], [path], [port] and
    [description] get the same result from [validateCreateServiceArgs], and
    two that agree on [name], [path], [envVars], [serviceId], [region] and
    [plan] get the same result from [validateGenerateRenderConfigArgs].  An
    unknown property is neither rejected nor kept. *)
Theorem X5_validators_ignore_other_properties (ps qs : list (string * value)) :
  (agree_on [ "name"; "path"; "port"; "description" ] ps qs ->
   validateCreateServiceArgs (Some (JObj ps)) = validateCreateServiceArgs (Some (JObj qs)))
  /\ (agree_on [ "name"; "path"; "envVars"; "serviceId"; "region"; "plan" ] ps qs ->
      validateGenerateRenderConfigArgs (Some (JObj ps))
      = validateGenerateRenderConfigArgs (Some (JObj qs))).
Proof.
  split; intros H; unfold validateCreateServiceArgs, validateGenerateRenderConfigArgs;
    simpl.
  - rewrite (H "name"), (H "path"), (H "port"), (H "description");
      simpl; auto 10.
  - rewrite (H "name"), (H "path"), (H "envVars"), (H "serviceId"),
            (H "region"), (H "plan"); simpl; auto 10.
Qed.

Lemma X5_witness :
  validateCreateServiceArgs
    (Some (JObj [ ("teamId", JNum 5); ("name", JStr "svc"); ("path", JStr "/tmp");
                  ("region", JBool true) ]))
  = validateCreateServiceArgs
      (Some (JObj [ ("name", JStr "svc"); ("path", JStr "/tmp") ])).
Proof.
  apply (proj1 (X5_validators_ignore_other_properties _ _)).
  intros k Hk. simpl in Hk.
  destruct Hk as [<-|[<-|[<-|[<-|[]]]]]; reflexivity.
Defined.

Lemma find_tool_listTools (t : string) :
  find_tool listTools t
  = if ("create_deno_service" =? t)%string then Some create_deno_service_tool
    else if ("generate_render_config" =? t)%string then Some generate_render_config_tool
    else None.
Proof. reflexivity. Qed.

(** X6. The schema and the validators agree on what is required: for a
    listed tool and a property of its schema, the property is in the
    schema's [required] list exactly when the validator of the tool rejects
    every argument object that lacks it. *)
Theorem X6_schema_required_is_what_validation_enforces
    (t : string) (tv : value) (f : string) :
  find_tool listTools t = Some tv ->
  In f (schema_properties tv) ->
  (In f (schema_required tv) <-> forall raw, get raw f = None -> accepts t raw = false).
Proof.
  intros Hfind Hf.
  assert (Hreq_c : forall raw, lacks_required raw -> accepts "create_deno_service" raw = false).
  { intros raw Hl. unfold accepts. simpl.
    destruct (lacks_required_create raw Hl) as [m ->]. reflexivity. }
  assert (Hreq_g : forall raw, lacks_required raw -> accepts "generate_render_config" raw = false).
  { intros raw Hl. unfold accepts. simpl.
    destruct (lacks_required_generate raw Hl) as [m ->]. reflexivity. }
  assert (Hmin : forall k, k <> "name" -> k <> "path" ->
                 get (Some (JObj [ ("name", JStr "n"); ("path", JStr "p") ])) k = None).
  { intros k H1 H2. simpl. apply String.eqb_neq in H1, H2. rewrite H1, H2. reflexivity. }
  rewrite find_tool_listTools in Hfind.
  destruct ("create_deno_service" =? t)%string eqn:Ec.
  - apply String.eqb_eq in Ec. subst t. injection Hfind as <-.
    simpl in Hf. destruct Hf as [<-|[<-|[<-|[<-|[]]]]].
    + split; [|intros _; simpl; auto].
      intros _ raw Hg. apply Hreq_c. right; right; left. rewrite Hg. simpl. discriminate.
    + split; [|intros _; simpl; auto].
      intros _ raw Hg. apply Hreq_c. right; right; right. rewrite Hg. simpl. discriminate.
    + split.
      * simpl. intros [H|[H|[]]]; discriminate H.
      * intros H. specialize (H _ (Hmin "port" ltac:(discriminate) ltac:(discriminate))).
        vm_compute in H. discriminate H.
    + split.
      * simpl. intros [H|[H|[]]]; discriminate H.
      * intros H. specialize (H _ (Hmin "description" ltac:(discriminate) ltac:(discriminate))).
        vm_compute in H. discriminate H.
  - destruct ("generate_render_config" =? t)%string eqn:Eg;
      [|discriminate Hfind].
    apply String.eqb_eq in Eg. subst t. injection Hfind as <-.
    simpl in Hf. destruct Hf as [<-|[<-|[<-|[<-|[<-|[<-|[]]]]]]].
    + split; [|intros _; simpl; auto].
      intros _ raw Hg. apply Hreq_g. right; right; left. rewrite Hg. simpl. discriminate.
    + split; [|intros _; simpl; auto].
      intros _ raw Hg. apply Hreq_g. right; right; right. rewrite Hg. simpl. discriminate.
    + split.
      * simpl. intros [H|[H|[]]]; discriminate H.
      * intros H. specialize (H _ (Hmin "envVars" ltac:(discriminate) ltac:(discriminate))).
        vm_compute in H. discriminate H.
    + split.
      * simpl. intros [H|[H|[]]]; discriminate H.
      * intros H. specialize (H _ (Hmin "serviceId" ltac:(discriminate) ltac:(discriminate))).
        vm_compute in H. discriminate H.
    + split.
      * simpl. intros [H|[H|[]]]; discriminate H.
      * intros H. specialize (H _ (Hmin "region" ltac:(discriminate) ltac:(discriminate))).
        vm_compute in H. discriminate H.
    + split.
      * simpl. intros [H|[H|[]]]; discriminate H.
      * intros H. specialize (H _ (Hmin "plan" ltac:(discriminate) ltac:(discriminate))).
        vm_compute in H. discriminate H.
Qed.

Lemma X6_witness :
  accepts "generate_render_config" (Some (JObj [ ("name", JStr "svc") ])) = false.
Proof.
  refine (proj1 (X6_schema_required_is_what_validation_enforces
                   "generate_render_config" generate_render_config_tool "path"
                   eq_refl _) _ (Some (JObj [ ("name", JStr "svc") ])) eq_refl).
  - simpl. auto.
  - simpl. auto.
Defined.

(** ** Defaults and the configuration *)

Lemma or_str_lit_nonempty (o : option string) (d : string) :
  d <> "" -> or_str_lit o d <> "".
Proof.
  intros Hd. unfold or_str_lit. destruct o as [s|]; [|exact Hd].
  destruct (s =? "")%string eqn:E; simpl; [exact Hd|].
  apply String.eqb_neq. exact E.
Qed.

(** X7. The region and the plan of a descriptor are never empty, whatever
    the arguments and the configuration: each chain of [||] ends in a
    non-empty literal.  The region that the constructor stores is never
    empty either, so the handler's own fallback [oregon] is not reached
    with a configuration built by the constructor. *)
Theorem X7_descriptor_region_and_plan_never_empty
    (cfg : RenderConfig.t) (a : GenerateRenderConfigArgs.t) (env : ProcessEnv) :
  (exists r, descriptor_field cfg a "region" = Some (JStr r) /\ r <> "")
  /\ (exists p, descriptor_field cfg a "plan" = Some (JStr p) /\ p <> "")
  /\ (exists d, RenderConfig.region (constructor_renderConfig env) = Some d /\ d <> ""
                /\ or_str_lit (or_str (GenerateRenderConfigArgs.region a)
                                      (RenderConfig.region (constructor_renderConfig env)))
                              "oregon"
                   = match or_str (GenerateRenderConfigArgs.region a) (Some d) with
                     | Some r => r
                     | None => d
                     end).
Proof.
  split; [|split].
  - eexists. rewrite descriptor_field_literal, assoc_region by discriminate.
    split; [reflexivity|]. apply or_str_lit_nonempty. discriminate.
  - eexists. rewrite descriptor_field_literal, assoc_plan by discriminate.
    split; [reflexivity|]. apply or_str_lit_nonempty. discriminate.
  - exists (or_str_lit (env "RENDER_REGION") "oregon").
    assert (Hd : or_str_lit (env "RENDER_REGION") "oregon" <> "")
      by (apply or_str_lit_nonempty; discriminate).
    split; [reflexivity|]. split; [exact Hd|].
    simpl. unfold or_str.
    destruct (truthy_str (GenerateRenderConfigArgs.region a)) eqn:Et.
    + destruct (GenerateRenderConfigArgs.region a) as [r|]; [|discriminate].
      simpl in Et. unfold or_str_lit at 1. rewrite Et. reflexivity.
    + apply or_str_lit_some. exact Hd.
Qed.

Section ConfigurationFacts.

Context {W : Type} {P : Path} (FS : FileSystem W).

(** X8. What the configuration can change.  [create_deno_service] reads
    no environment variable.  No tool reads a variable other than
    [RENDER_API_KEY] and [RENDER_REGION].  [RENDER_REGION] has no effect on
    a [generate_render_config] call whose [region] argument is a non-empty
    string. *)
Theorem X8_environment_variables_that_matter
    (env1 env2 : ProcessEnv) (req : CallToolRequest)
    (log : list (FsOp * option Thrown)) (w : W) :
  (tool req = "create_deno_service" ->
   @server _ P (logged FS) env1 req (log, w) = @server _ P (logged FS) env2 req (log, w))
  /\ (env_agree_on [ "RENDER_API_KEY"; "RENDER_REGION" ] env1 env2 ->
      @server _ P (logged FS) env1 req (log, w)
      = @server _ P (logged FS) env2 req (log, w))
  /\ (forall a r,
      tool req = "generate_render_config" ->
      validateGenerateRenderConfigArgs (arguments req) = inr a ->
      GenerateRenderConfigArgs.region a = Some r -> r <> "" ->
      env1 "RENDER_API_KEY" = env2 "RENDER_API_KEY" ->
      @server _ P (logged FS) env1 req (log, w)
      = @server _ P (logged FS) env2 req (log, w)).
Proof.
  split; [|split].
  - intros Ht. unfold server, callTool. rewrite Ht. reflexivity.
  - intros H. unfold server, constructor_renderConfig.
    rewrite (H "RENDER_API_KEY"), (H "RENDER_REGION") by (simpl; auto). reflexivity.
  - intros a r Ht Ev Hr Hnz Hkey. unfold server.
    rewrite !(callTool_generate_logged FS _ req a log w Ht Ev).
    assert (Hcall : generate_call (constructor_renderConfig env1) a
                    = generate_call (constructor_renderConfig env2) a).
    { unfold generate_call, renderYaml, service, service_literal.
      rewrite !(or_str_l _ _ r Hr Hnz). reflexivity. }
    assert (Hmsg : generated_text (constructor_renderConfig env1) a
                   = generated_text (constructor_renderConfig env2) a).
    { unfold generated_text, configMessage. simpl. rewrite Hkey. reflexivity. }
    rewrite Hcall, Hmsg. reflexivity.
Qed.



End ConfigurationFacts.

Lemma X8_witness :
  @server _ posix (logged SimFs.fs)
    (fun k => if (k =? "RENDER_REGION")%string then Some "frankfurt" else None)
    {| tool := "generate_render_config";
       arguments := Some (JObj [ ("name", JStr "svc"); ("path", JStr "/tmp");
                                 ("region", JStr "ohio") ]) |}
    ([], SimFs.tmp_only)
  = @server _ posix (logged SimFs.fs) (fun _ => None)
      {| tool := "generate_render_config";
         arguments := Some (JObj [ ("name", JStr "svc"); ("path", JStr "/tmp");
                                   ("region", JStr "ohio") ]) |}
      ([], SimFs.tmp_only).
Proof.
  refine (proj2 (proj2 (@X8_environment_variables_that_matter _ posix SimFs.fs
            (fun k => if (k =? "RENDER_REGION")%string then Some "frankfurt" else None)
            (fun _ => None)
            {| tool := "generate_render_config";
               arguments := Some (JObj [ ("name", JStr "svc"); ("path", JStr "/tmp");
                                         ("region", JStr "ohio") ]) |}
            [] SimFs.tmp_only)) _ "ohio" eq_refl eq_refl eq_refl _ eq_refl).
  discriminate.
Defined.



(** ** The documentation file *)

Lemma description_block_template (d : option string) :
  match d with
  | Some d => if negb (d =? "")%string then nl ++ d ++ nl else ""
  | None => ""
  end = description_block d.
Proof.
  destruct d as [d|]; [|reflexivity]. simpl. destruct (d =? "")%string; reflexivity.
Qed.

(** X11. [README.md] is the title line [# name], then the description as
    a paragraph of its own when it was supplied and is not empty, then a
    text that is the same for every call and starts with the heading
    [## Development]: the port never appears in it, and an absent and an
    empty description give the same file. *)
Theorem X11_readme_is_title_description_and_fixed_text :
  exists tail,
    String.prefix (nl ++ "## Development" ++ nl) tail = true
    /\ (forall a, readmeContent a
                  = "# " ++ CreateServiceArgs.name a ++ nl
                    ++ description_block (CreateServiceArgs.description a) ++ tail)
    /\ (forall a b, CreateServiceArgs.name a = CreateServiceArgs.name b ->
        unset (CreateServiceArgs.description a) ->
        unset (CreateServiceArgs.description b) ->
        readmeContent a = readmeContent b).
Proof.
  exists (String.substring 3 (String.length (readmeContent
            {| CreateServiceArgs.name := ""; CreateServiceArgs.path := "";
               CreateServiceArgs.port := None;
               CreateServiceArgs.description := None |}) - 3)
            (readmeContent
               {| CreateServiceArgs.name := ""; CreateServiceArgs.path := "";
                  CreateServiceArgs.port := None;
                  CreateServiceArgs.description := None |})).
  assert (Hshape : forall a,
    readmeContent a
    = "# " ++ CreateServiceArgs.name a ++ nl
      ++ description_block (CreateServiceArgs.description a)
      ++ String.substring 3 (String.length (readmeContent
            {| CreateServiceArgs.name := ""; CreateServiceArgs.path := "";
               CreateServiceArgs.port := None;
               CreateServiceArgs.description := None |}) - 3)
            (readmeContent
               {| CreateServiceArgs.name := ""; CreateServiceArgs.path := "";
                  CreateServiceArgs.port := None;
                  CreateServiceArgs.description := None |})).
  { intros a. unfold readmeContent at 1. unfold unlines.
    rewrite description_block_template.
    rewrite concat_more, concat_more.
    rewrite string_app_assoc. reflexivity. }
  split; [vm_compute; reflexivity|]. split; [exact Hshape|].
  intros a b Hn Ha Hb. rewrite (Hshape a), (Hshape b), Hn.
  destruct Ha as [-> | ->]; destruct Hb as [-> | ->]; reflexivity.
Qed.

(** ** The compiled server *)

Section BuildFacts.

Context {W : Type} {P : Path} (FS : FileSystem W).

Lemma build_callTool_generate_logged cfg req a
    (log : list (FsOp * option Thrown)) (w : W) :
  tool req = "generate_render_config" ->
  Build.validateGenerateRenderConfigArgs (arguments req) = inr a ->
  let call := WriteFile (path_join (Build.GenerateRenderConfigArgs.path a) "render.yaml")
                        (JSON_stringify (Build.renderYaml cfg a)) in
  @Build.callTool _ P (logged FS) cfg req (log, w)
  = match fs_call call w with
    | (Some t, w') =>
        (Fulfilled (generate_failed t), ((log ++ [(call, Some t)])%list, w'))
    | (None, w') =>
        (Fulfilled
           (text_result ("Generated render.yaml configuration at "
                         ++ path_join (Build.GenerateRenderConfigArgs.path a) "render.yaml"
                         ++ nl ++ Build.configMessage cfg)),
         ((log ++ [(call, None)])%list, w'))
    end.
Proof.
  intros Ht Ev call. unfold Build.callTool. rewrite Ht.
  change ("generate_render_config" =? "create_deno_service")%string with false.
  cbv iota. rewrite String.eqb_refl, Ev.
  unfold Build.handleGenerateRenderConfig, try_catch, bind, await_fs, ret, settle.
  simpl. fold call. destruct (fs_call call w) as [[t|] w']; reflexivity.
Qed.

Lemma build_descriptor_field_literal cfg a k :
  k <> "teamId" ->
  Build.descriptor_field cfg a k = assoc k (Build.service_literal cfg a).
Proof.
  intros Hk. unfold Build.descriptor_field, Build.service.
  assert (Hne : (k =? "teamId")%string = false) by (apply String.eqb_neq; exact Hk).
  destruct (or_str _ _) as [id|]; [|reflexivity].
  destruct (negb (id =? "")%string); [|reflexivity].
  unfold Build.service_literal. simpl.
  repeat match goal with
         | |- context [(k =? ?s)%string] =>
             destruct (k =? s)%string eqn:?; [reflexivity|]
         end.
  rewrite Hne. reflexivity.
Qed.

Lemma build_teamId_field cfg a :
  Build.descriptor_field cfg a "teamId"
  = match or_str (Build.GenerateRenderConfigArgs.teamId a)
                 (Build.RenderConfig.teamId cfg) with
    | Some id => if (id =? "")%string then None else Some (JStr id)
    | None => None
    end.
Proof.
  unfold Build.descriptor_field, Build.service.
  destruct (or_str _ _) as [id|]; [|reflexivity].
  destruct (id =? "")%string; reflexivity.
Qed.

(** X12. In the compiled server the descriptor carries a [teamId] taken
    from the [teamId] argument when it was supplied and is not empty,
    otherwise from [RENDER_TEAM_ID] when that is set and not empty, and no
    [teamId] otherwise; the file written is the serialization of
    [{services: [service]}] with that service. *)
Theorem X12_build_teamId_precedence
    (env : ProcessEnv) (req : CallToolRequest)
    (a : Build.GenerateRenderConfigArgs.t) (w : W) :
  tool req = "generate_render_config" ->
  Build.validateGenerateRenderConfigArgs (arguments req) = inr a ->
  let cfg := Build.constructor_renderConfig env in
  map fst (fst (snd (@Build.server _ P (logged FS) env req ([], w))))
  = [ WriteFile (path_join (Build.GenerateRenderConfigArgs.path a) "render.yaml")
                (JSON_stringify (JObj [ ("services", JArr [ Build.service cfg a ]) ])) ]
  /\ (forall t, Build.GenerateRenderConfigArgs.teamId a = Some t -> t <> "" ->
      Build.descriptor_field cfg a "teamId" = Some (JStr t))
  /\ (forall t, unset (Build.GenerateRenderConfigArgs.teamId a) ->
      env "RENDER_TEAM_ID" = Some t -> t <> "" ->
      Build.descriptor_field cfg a "teamId" = Some (JStr t))
  /\ (unset (Build.GenerateRenderConfigArgs.teamId a) ->
      unset (env "RENDER_TEAM_ID") ->
      Build.descriptor_field cfg a "teamId" = None).
Proof.
  intros Ht Ev cfg. split; [|split; [|split]].
  - unfold Build.server. fold cfg.
    rewrite (build_callTool_generate_logged cfg req a [] w Ht Ev).
    destruct (fs_call _ w) as [[t|] w']; reflexivity.
  - intros t Hsome Hnz. rewrite build_teamId_field.
    rewrite (or_str_l _ _ t Hsome Hnz), Hsome.
    apply String.eqb_neq in Hnz. rewrite Hnz. reflexivity.
  - intros t Hu He Hnz. rewrite build_teamId_field, (or_str_r _ _ Hu).
    simpl. rewrite He. apply String.eqb_neq in Hnz. rewrite Hnz. reflexivity.
  - intros Hu He. rewrite build_teamId_field, (or_str_r _ _ Hu). simpl.
    destruct He as [-> | ->]; reflexivity.
Qed.

Lemma validators_agree_without_ids (ps : list (string * value)) :
  assoc "serviceId" ps = None ->
  assoc "teamId" ps = None ->
  match validateGenerateRenderConfigArgs (Some (JObj ps)),
        Build.validateGenerateRenderConfigArgs (Some (JObj ps)) with
  | inl e, inl e' => e = e'
  | inr a, inr b =>
      GenerateRenderConfigArgs.name a = Build.GenerateRenderConfigArgs.name b
      /\ GenerateRenderConfigArgs.path a = Build.GenerateRenderConfigArgs.path b
      /\ GenerateRenderConfigArgs.envVars a = Build.GenerateRenderConfigArgs.envVars b
      /\ GenerateRenderConfigArgs.region a = Build.GenerateRenderConfigArgs.region b
      /\ GenerateRenderConfigArgs.plan a = Build.GenerateRenderConfigArgs.plan b
      /\ GenerateRenderConfigArgs.serviceId a = None
      /\ Build.GenerateRenderConfigArgs.teamId b = None
  | _, _ => False
  end.
Proof.
  intros Hs Ht.
  unfold validateGenerateRenderConfigArgs, Build.validateGenerateRenderConfigArgs, throw.
  simpl. rewrite Hs, Ht.
  destruct (assoc "name" ps) as [[ | | | n | | ]|]; try reflexivity.
  destruct (assoc "path" ps) as [[ | | | p | | ]|]; try reflexivity.
  destruct (assoc "envVars" ps) as [[ | | | | xs | qs ]|]; simpl; try reflexivity;
  destruct (assoc "region" ps) as [[ | | | r | | ]|]; simpl; try reflexivity;
  destruct (assoc "plan" ps) as [[ | | | q | | ]|]; simpl; try reflexivity;
  repeat split.
Qed.

(** X13. The compiled server and the source agree on every request that
    names neither a [serviceId] nor a [teamId], when [RENDER_TEAM_ID] is
    unset or empty: the same outcome, the same file-system calls with the
    same contents, the same resulting file system. *)
Theorem X13_build_and_source_agree_without_ids
    (env : ProcessEnv) (req : CallToolRequest)
    (log : list (FsOp * option Thrown)) (w : W) :
  get (arguments req) "serviceId" = None ->
  get (arguments req) "teamId" = None ->
  unset (env "RENDER_TEAM_ID") ->
  @Build.server _ P (logged FS) env req (log, w)
  = @server _ P (logged FS) env req (log, w).
Proof.
  intros Hs Ht Hteam. unfold Build.server, server, Build.callTool, callTool.
  destruct (tool req =? "create_deno_service")%string; [reflexivity|].
  destruct (tool req =? "generate_render_config")%string; [|reflexivity].
  destruct (arguments req) as [[ | | | | | ps]|]; try reflexivity.
  simpl in Hs, Ht.
  pose proof (validators_agree_without_ids ps Hs Ht) as H.
  destruct (validateGenerateRenderConfigArgs (Some (JObj ps))) as [e|a];
    destruct (Build.validateGenerateRenderConfigArgs (Some (JObj ps))) as [e'|b];
    try contradiction.
  - subst e'. reflexivity.
  - destruct H as (Hn & Hp & He & Hr & Hq & Hsid & Htid).
    destruct a as [an ap ae asid ar aq]. destruct b as [bn bp be btid br bq].
    simpl in *. subst.
    assert (Hfile : Build.renderYaml (Build.constructor_renderConfig env)
                      (Build.GenerateRenderConfigArgs.mk bn bp be None br bq)
                    = renderYaml (constructor_renderConfig env)
                        (GenerateRenderConfigArgs.mk bn bp be None br bq)).
    { unfold Build.renderYaml, renderYaml, Build.service, service. simpl.
      destruct Hteam as [-> | ->]; reflexivity. }
    unfold Build.handleGenerateRenderConfig, handleGenerateRenderConfig,
      try_catch, bind, await_fs, ret, settle.
    simpl. rewrite Hfile.
    destruct (fs_call _ w) as [[t|] w']; reflexivity.
Qed.

(** X14. Each of the two servers ignores the identifier of the other.
    The source never emits a [teamId] and does not look at a [teamId]
    argument, of whatever type; the compiled server never emits an [id] and
    does not look at a [serviceId] argument, of whatever type. *)
Theorem X14_each_server_ignores_the_other_identifier
    (ps : list (string * value)) (v : value) :
  (forall cfg a, descriptor_field cfg a "teamId" = None)
  /\ (forall cfg a, Build.descriptor_field cfg a "id" = None)
  /\ validateGenerateRenderConfigArgs (Some (JObj (("teamId", v) :: ps)))
     = validateGenerateRenderConfigArgs (Some (JObj ps))
  /\ Build.validateGenerateRenderConfigArgs (Some (JObj (("serviceId", v) :: ps)))
     = Build.validateGenerateRenderConfigArgs (Some (JObj ps)).
Proof.
  split; [|split; [|split]].
  - intros cfg a. rewrite descriptor_field_literal by discriminate. reflexivity.
  - intros cfg a. rewrite build_descriptor_field_literal by discriminate. reflexivity.
  - reflexivity.
  - reflexivity.
Qed.

End BuildFacts.

Lemma X12_witness :
  Build.descriptor_field
    (Build.constructor_renderConfig
       (fun k => if (k =? "RENDER_TEAM_ID")%string then Some "tea-env" else None))
    {| Build.GenerateRenderConfigArgs.name := "svc";
       Build.GenerateRenderConfigArgs.path := "/tmp";
       Build.GenerateRenderConfigArgs.envVars := None;
       Build.GenerateRenderConfigArgs.teamId := Some "tea-arg";
       Build.GenerateRenderConfigArgs.region := None;
       Build.GenerateRenderConfigArgs.plan := None |} "teamId"
  = Some (JStr "tea-arg").
Proof.
  refine (proj1 (proj2 (@X12_build_teamId_precedence _ posix SimFs.fs
            (fun k => if (k =? "RENDER_TEAM_ID")%string then Some "tea-env" else None)
            {| tool := "generate_render_config";
               arguments := Some (JObj [ ("name", JStr "svc"); ("path", JStr "/tmp");
                                         ("teamId", JStr "tea-arg") ]) |}
            _ SimFs.tmp_only eq_refl eq_refl)) "tea-arg" eq_refl _).
  discriminate.
Defined.

Lemma X13_witness :
  @Build.server _ posix (logged SimFs.fs) (fun _ => None)
    {| tool := "generate_render_config";
       arguments := Some (JObj [ ("name", JStr "svc"); ("path", JStr "/tmp");
                                 ("plan", JStr "team") ]) |}
    ([], SimFs.tmp_only)
  = @server _ posix (logged SimFs.fs) (fun _ => None)
      {| tool := "generate_render_config";
         arguments := Some (JObj [ ("name", JStr "svc"); ("path", JStr "/tmp");
                                   ("plan", JStr "team") ]) |}
      ([], SimFs.tmp_only).
Proof.
  apply (@X13_build_and_source_agree_without_ids _ posix SimFs.fs);
    [reflexivity | reflexivity | left; reflexivity].
Defined.

(** ** The two tools together *)

(** X15. Whatever arguments [generate_render_config] accepts,
    [create_deno_service] accepts too, with the same [name] and [path]; the
    converse fails, since [create_deno_service] does not look at [envVars],
    [serviceId], [region] or [plan]. *)
Theorem X15_generate_arguments_are_create_arguments (raw : option value)
    (g : GenerateRenderConfigArgs.t) :
  validateGenerateRenderConfigArgs raw = inr g ->
  (exists c, validateCreateServiceArgs raw = inr c
             /\ CreateServiceArgs.name c = GenerateRenderConfigArgs.name g
             /\ CreateServiceArgs.path c = GenerateRenderConfigArgs.path g)
  /\ (exists raw' c', validateCreateServiceArgs raw' = inr c'
                      /\ rejected_as_invalid (validateGenerateRenderConfigArgs raw')).
Proof.
  intros Ev. apply validateGenerateRenderConfigArgs_inv in Ev.
  destruct Ev as (ps & -> & Hn & Hp & _). split.
  - eexists. split; [apply validateCreateServiceArgs_ok; eassumption|].
    split; reflexivity.
  - exists (Some (JObj [ ("name", JStr "svc"); ("path", JStr "/tmp");
                         ("plan", JNum 1) ])).
    eexists. split; [reflexivity|]. eexists. reflexivity.
Qed.

Lemma X15_witness :
  exists c,
    validateCreateServiceArgs
      (Some (JObj [ ("name", JStr "svc"); ("path", JStr "/tmp");
                    ("envVars", JObj [ ("A", JStr "1") ]) ])) = inr c
    /\ CreateServiceArgs.name c = "svc"
    /\ CreateServiceArgs.path c = "/tmp".
Proof.
  exact (proj1 (X15_generate_arguments_are_create_arguments
                  (Some (JObj [ ("name", JStr "svc"); ("path", JStr "/tmp");
                                ("envVars", JObj [ ("A", JStr "1") ]) ]))
                  _ eq_refl)).
Defined.

(** X16. The defaults that the schemas advertise are the ones the handlers
    apply: the entrypoint binds the advertised default port when [port] is
    absent or zero; the descriptor has the advertised default plan when
    [plan] is absent or empty, and the advertised default region when
    [region] is absent or empty and [RENDER_REGION] is unset or empty. *)
Theorem X16_schema_defaults_are_the_handler_defaults :
  (forall a, CreateServiceArgs.port a = None \/ CreateServiceArgs.port a = Some 0%Z ->
      exists d, schema_default create_deno_service_tool "port" = Some (JNum d)
                /\ mainContent a = main_head ++ Number_toString d ++ main_tail)
  /\ (forall cfg a, unset (GenerateRenderConfigArgs.plan a) ->
      descriptor_field cfg a "plan" = schema_default generate_render_config_tool "plan")
  /\ (forall env a, unset (GenerateRenderConfigArgs.region a) ->
      unset (env "RENDER_REGION") ->
      descriptor_field (constructor_renderConfig env) a "region"
      = schema_default generate_render_config_tool "region").
Proof.
  split; [|split].
  - intros a Hp. exists 8000%Z. split; [reflexivity|].
    unfold mainContent. destruct Hp as [-> | ->]; reflexivity.
  - intros cfg a Hu. rewrite descriptor_field_literal, assoc_plan by discriminate.
    rewrite (or_str_lit_unset _ _ Hu). reflexivity.
  - intros env a Hu He. rewrite descriptor_field_literal, assoc_region by discriminate.
    rewrite (or_str_r _ _ Hu). unfold constructor_renderConfig.
    cbn [RenderConfig.region]. rewrite (or_str_lit_unset _ _ He). reflexivity.
Qed.

Lemma X16_witness :
  descriptor_field (constructor_renderConfig (fun _ => None))
    {| GenerateRenderConfigArgs.name := "svc";
       GenerateRenderConfigArgs.path := "/tmp";
       GenerateRenderConfigArgs.envVars := None;
       GenerateRenderConfigArgs.serviceId := None;
       GenerateRenderConfigArgs.region := Some "";
       GenerateRenderConfigArgs.plan := None |} "region"
  = Some (JStr "oregon").
Proof.
  apply (proj2 (proj2 X16_schema_defaults_are_the_handler_defaults)
           (fun _ => None)).
  - right; reflexivity.
  - left; reflexivity.
Defined.
